(** * raspadorlegislativo: the Senado spiders

  A shallow embedding of [raspadorlegislativo/spiders/senado.py]: the bill
  spider [SenadoSpider] (discovery, the chain of callbacks that builds one
  bill, the queue of PDF texts and the finalization of the item) and the
  agenda spider [AgendaSenadoSpider] (the filter of events related to a
  bill and the composition of an event's description).

  Python strings are [string]s (the bytes of their UTF-8 encoding: the
  spiders only concatenate them, join them and test them for emptiness); for
  the regular expression of the agenda filter, where a character class
  speaks about code points, a text is a list of code points.  A Python [set] of strings is a [gset string].  XML
  responses are trees, and the XPath expressions of the source are evaluated
  on them.  Scrapy itself (transport, scheduling, item sinks) is not
  modelled: a [Request] is a descriptor, a callback is a function from the
  response it receives to what it yields or to the exception it raises.
  Where the URL of a request is read from a page, the refusal of the
  constructor to take it ([TypeError], [ValueError]) is part of the model. *)

From Stdlib Require Import ZArith Lia String Ascii List.
From stdpp Require Import base list list_numbers strings gmap pretty.

Local Open Scope string_scope.

(** ** The Python values and operations the spiders use *)

Module Py.

(** [f'{x}'] and [str.format] of a value that may be [None]. *)
Definition str (x : option string) : string :=
  match x with
  | Some s => s
  | None => "None"
  end.

(** The line feed, ['\n']. *)
Definition nl : string := String (ascii_of_nat 10) "".

(** [sep.join(parts)]. *)
Definition join (sep : string) (parts : list string) : string :=
  String.concat sep parts.

(** Truth value of a [str]: the empty string is false. *)
Definition truthy (s : string) : bool :=
  match s with
  | EmptyString => false
  | String _ _ => true
  end.

(** Truth value of a list or tuple: the empty one is false. *)
Definition nonempty {A} (l : list A) : bool :=
  match l with
  | [] => false
  | _ :: _ => true
  end.

(** [x or ''] for [x] a string or [None]. *)
Definition or_empty (x : option string) : string :=
  match x with
  | Some s => if truthy s then s else ""
  | None => ""
  end.

(** The exceptions a callback of this file can raise. *)
Inductive exn : Type :=
| AttributeError (obj attr : string)
| TypeError (got : string)
| ValueError (value : string).

Inductive result (A : Type) : Type :=
| Ok (a : A)
| Raise (e : exn).
Arguments Ok {A} a.
Arguments Raise {A} e.

Definition bind {A B} (r : result A) (k : A -> result B) : result B :=
  match r with
  | Ok a => k a
  | Raise e => Raise e
  end.

(** The objects that meet in the comparison of [parse_texts]: strings and
    bound methods of strings. *)
Inductive value : Type :=
| VStr (s : string)
| VBoundMethod (self : string) (name : string).

(** [a == b]: two strings compare by content, two bound methods by receiver
    and function, and a bound method never equals a string. *)
Definition eq (a b : value) : bool :=
  match a, b with
  | VStr x, VStr y => String.eqb x y
  | VBoundMethod s m, VBoundMethod s' m' => String.eqb s s' && String.eqb m m'
  | _, _ => false
  end.

(** [x.lower] (the attribute, not a call) for [x] a string or [None]. *)
Definition getattr_lower (x : option string) : result value :=
  match x with
  | Some s => Ok (VBoundMethod s "lower")
  | None => Raise (AttributeError "NoneType" "lower")
  end.

End Py.

(** ** XML responses and the XPath expressions of the source *)

Module Xml.

#[warnings="-register-all"]
Inductive node : Type :=
| Element (tag : string) (children : list node)
| Chars (data : string).

Definition children (n : node) : list node :=
  match n with
  | Element _ cs => cs
  | Chars _ => []
  end.

(** The node tests of the source's paths: [text()] and an element name. *)
Inductive test : Type :=
| text
| named (tag : string).

Definition node_test (t : test) (n : node) : bool :=
  match t, n with
  | text, Chars _ => true
  | named a, Element b _ => String.eqb a b
  | _, _ => false
  end.

Fixpoint starts_with (p l : list string) : bool :=
  match p, l with
  | [], _ => true
  | x :: p', y :: l' => String.eqb x y && starts_with p' l'
  | _ :: _, [] => false
  end.

(** [select parents t anc n]: the nodes of the tree [n], in document order,
    that pass the test [t] and whose nearest ancestors are named [parents]
    (nearest first); [anc] names the ancestors of [n] itself. *)
Fixpoint select (parents : list string) (t : test) (anc : list string)
    (n : node) : list node :=
  (if node_test t n && starts_with parents anc then [n] else []) ++
  match n with
  | Element tag cs => flat_map (select parents t (tag :: anc)) cs
  | Chars _ => []
  end.

(** A selector: a node together with the document it lives in. *)
Record selector : Type := Selector { document : node; context : node }.

(** [sel.xpath('//e1/.../ek/t')]: an absolute path, evaluated from the root
    of the selector's document whatever its context node is. *)
Definition xpath_abs (sel : selector) (elems : list string) (t : test)
    : list selector :=
  Selector (document sel) <$> select (rev elems) t [] (document sel).

Definition child_step (t : test) (ns : list node) : list node :=
  flat_map (fun n => List.filter (node_test t) (children n)) ns.

(** [sel.xpath('t1/.../tk')]: a relative path of child steps, evaluated from
    the selector's context node. *)
Definition xpath_rel (sel : selector) (steps : list test) : list selector :=
  Selector (document sel) <$>
    fold_left (fun ns t => child_step t ns) steps [context sel].

Definition chars (n : node) : option string :=
  match n with
  | Chars d => Some d
  | Element _ _ => None
  end.

(** [.extract()] of a selection of text nodes: their character data. *)
Definition extract (sels : list selector) : list string :=
  omap (fun s => chars (context s)) sels.

Definition extract_first (sels : list selector) : option string :=
  head (extract sels).

(** The selector of a response: the context is the document itself. *)
Definition response (body : node) : selector := Selector body body.

End Xml.

(** ** [SenadoSpider] *)

Module Senado.
Import Xml.

(** [SenadoSpider.subjects]. *)
Definition subjects : list string := ["PLS"; "PLC"; "PEC"].

(** [SenadoSpider.urls], each entry applied to the arguments of its
    [format]. *)
Definition urls_list (subject year : string) : string :=
  "http://legis.senado.leg.br/dadosabertos/materia/tramitando?sigla="
    +:+ subject +:+ "&ano=" +:+ year.
Definition urls_detail (code : string) : string :=
  "http://legis.senado.leg.br/dadosabertos/materia/" +:+ code.
Definition urls_authorship (code : string) : string :=
  "http://legis.senado.leg.br/dadosabertos/materia/autoria/" +:+ code.
Definition urls_texts (code : string) : string :=
  "http://legis.senado.leg.br/dadosabertos/materia/textos/" +:+ code.
Definition urls_humans (code : string) : string :=
  "https://www25.senado.leg.br/web/atividade/materias/-/materia/" +:+ code.

(** A [datetime.date]. *)
Record date : Type := Date { year : Z; month : Z; day : Z }.

(** [range(a, b)]. *)
Definition range (a b : Z) : list Z := seqZ a (b - a).

(** The bill under construction: the dict [data] of [parse_bill].  [K] is the
    type of the entry ['palavras_chave']: a set of strings while the bill is
    enriched, a string once [next_pdf_or_item] has joined it.  An entry read
    with [extract_first] holds a string or [None]; ['autoria'] and
    ['autoria_ids'] are absent ([None] here) until [parse_authorship]. *)
Record item (K : Type) : Type := Item {
  palavras_chave : K;
  palavras_chave_originais : option string;
  nome : string;
  id_site : option string;
  apresentacao : option string;
  ementa : option string;
  local : option string;
  origem : string;
  url : string;
  autoria : option string;
  autoria_ids : option string
}.
Arguments Item {K}.
Arguments palavras_chave {K}.
Arguments palavras_chave_originais {K}.
Arguments nome {K}.
Arguments id_site {K}.
Arguments apresentacao {K}.
Arguments ementa {K}.
Arguments local {K}.
Arguments origem {K}.
Arguments url {K}.
Arguments autoria {K}.
Arguments autoria_ids {K}.

(** [item['palavras_chave'] = v]. *)
Definition set_palavras_chave {K K'} (v : K') (d : item K) : item K' :=
  Item v (palavras_chave_originais d) (nome d) (id_site d) (apresentacao d)
    (ementa d) (local d) (origem d) (url d) (autoria d) (autoria_ids d).

(** [item['autoria'] = a; item['autoria_ids'] = ids]. *)
Definition set_autoria {K} (a ids : string) (d : item K) : item K :=
  Item (palavras_chave d) (palavras_chave_originais d) (nome d) (id_site d)
    (apresentacao d) (ementa d) (local d) (origem d) (url d) (Some a) (Some ids).

(** The bill while it is enriched, and the [Bill] that is emitted. *)
Abbreviation draft := (item (gset string)).
Abbreviation Bill := (item string).

(** The URL of a text: what [extract_first] gave for it. *)
Abbreviation text_url := (option string).

Inductive callback : Type :=
| parse_cb | parse_bill_cb | parse_authorship_cb | parse_texts_cb | parse_pdf_cb.

(** The [meta] dict of a request, by the keys it has at each stage. *)
Inductive meta : Type :=
| NoMeta
| MetaCode (code : string)
| MetaBill (bill : draft) (keywords : option string) (code : string)
| MetaPdf (bill : draft) (urls : list text_url) (keywords : option string).

(** A [scrapy.Request]: the descriptor handed to the transport.  [errback]
    tells whether [self.error] was given as the error callback. *)
Record request : Type := Request {
  req_url : text_url;
  req_callback : callback;
  req_meta : meta;
  req_errback : bool
}.

(** What [next_pdf_or_item] returns: a [Bill], a [Request] or [None]. *)
Inductive output : Type :=
| YBill (b : Bill)
| YRequest (r : request)
| YNone.

(** [start_requests]: [start_date] is [date.fromisoformat(settings.START_DATE)]
    and [today] is [date.today()]. *)
Definition start_pairs (start_date today : date) : list (Z * string) :=
  let years := range (year start_date) (year today + 1) in
  list_prod years subjects.

Definition start_requests (start_date today : date) : list request :=
  (fun ys : Z * string =>
     Request (Some (urls_list (snd ys) (pretty (fst ys)))) parse_cb NoMeta false)
  <$> start_pairs start_date today.

(** [parse]: the page that lists the bills. *)
Definition parse (response : selector) : list request :=
  (fun code => Request (Some (urls_detail code)) parse_bill_cb (MetaCode code) false)
  <$> extract (xpath_abs response ["CodigoMateria"] text).

Section Spider.

(** [settings.MATCHERS]: the configured keyword matchers; empty (or [None])
    when no keyword filter is configured. *)
Context {matcher : Type}.
Variable MATCHERS : list matcher.

(** Scrapy's test of the URL of a request: whether the string has a
    scheme. *)
Variable accepts_url : string -> bool.

(** The keyword matcher behind [collect_keywords]: the configured keywords
    found in a text (which may be [None]). *)
Variable matchKeywords : option string -> gset string.

(** [BillSpider.text_from_pdf]: the text of a PDF response. *)
Context {pdf : Type}.
Variable text_from_pdf : pdf -> string.

(** Modelled from the spec: [BillSpider.collect_keywords] is defined in
    [raspadorlegislativo/spiders/__init__.py], which is not among the sources.
    The spec: run the KeywordMatcher over the text and union any matches into
    the record's matched-keyword set. *)
Definition collect_keywords (data : draft) (text : option string) : draft :=
  set_palavras_chave (palavras_chave data ∪ matchKeywords text) data.

(** [parse_bill]: the detail page of a bill; [code] is [response.meta['code']]. *)
Definition parse_bill (response : selector) (code : string) : request :=
  let description := extract_first (xpath_abs response ["EmentaMateria"] text) in
  let keywords := extract_first (xpath_abs response ["IndexacaoMateria"] text) in
  let number := extract_first (xpath_abs response ["NumeroMateria"] text) in
  let subject := extract_first (xpath_abs response ["SiglaSubtipoMateria"] text) in
  let data :=
    Item (∅ : gset string) keywords
      (Py.str subject +:+ " " +:+ Py.str number)
      (extract_first (xpath_abs response ["CodigoMateria"] text))
      (extract_first (xpath_abs response ["DataApresentacao"] text))
      description
      (extract_first (xpath_abs response ["NomeLocal"] text))
      "SE"
      (urls_humans code)
      None None in
  let data := collect_keywords data description in
  let data := collect_keywords data keywords in
  Request (Some (urls_authorship code)) parse_authorship_cb
    (MetaBill data keywords code) true.

(** [parse_authorship]; [bill], [keywords] and [code] are the entries of
    [response.meta]. *)
Definition parse_authorship (response : selector) (bill : draft)
    (keywords : option string) (code : string) : request :=
  let bill :=
    set_autoria
      (Py.join ", " (extract (xpath_abs response ["NomeAutor"] text)))
      (Py.join ", " (extract (xpath_abs response
         ["IdentificacaoParlamentar"; "CodigoParlamentar"] text)))
      bill in
  Request (Some (urls_texts code)) parse_texts_cb (MetaBill bill keywords code) true.

(** A URL that [Request] takes: a string that passes Scrapy's test. *)
Definition fetchable (url : text_url) : bool :=
  match url with
  | Some s => accepts_url s
  | None => false
  end.

(** [Request(url, callback, meta=meta, errback=self.error)] with a URL that
    was read from a page: the constructor raises [TypeError] when the URL is
    not a string ([None]) and [ValueError] when the string has no scheme.
    The URLs of the other requests are made from [urls], whose entries start
    with a scheme. *)
Definition new_request (url : text_url) (cb : callback) (m : meta)
    (errback : bool) : Py.result request :=
  match url with
  | None => Py.Raise (Py.TypeError "NoneType")
  | Some s =>
      if accepts_url s then Py.Ok (Request url cb m errback)
      else Py.Raise (Py.ValueError s)
  end.

(** [next_pdf_or_item]; [bill] and [keywords] are [response.meta['bill']] and
    [response.meta['keywords']].  The set is joined in the order Python
    iterates it, here the order of [elements]. *)
Definition next_pdf_or_item (bill : draft) (keywords : option string)
    (pending_texts : list text_url) : Py.result output :=
  match pending_texts with
  | [] =>
      let item :=
        set_palavras_chave (Py.join ", " (elements (palavras_chave bill))) bill in
      if negb (Py.nonempty MATCHERS) then Py.Ok (YBill item)
      else if Py.truthy (palavras_chave item) then Py.Ok (YBill item)
      else Py.Ok YNone
  | url :: urls =>
      Py.bind (new_request url parse_pdf_cb (MetaPdf bill urls keywords) true)
        (fun request => Py.Ok (YRequest request))
  end.

(** The generator expression of [parse_texts], over the selection
    [response.xpath('//Text')]: for each [text] the condition is evaluated
    first, and the URL only when it holds. *)
Fixpoint pending_texts_of (texts : list selector) : Py.result (list text_url) :=
  match texts with
  | [] => Py.Ok []
  | text_ :: rest =>
      Py.bind
        (Py.getattr_lower (extract_first (xpath_abs text_ ["TipoDocumento"] text)))
        (fun lower =>
           if Py.eq lower (Py.VStr "pdf") then
             Py.bind (pending_texts_of rest) (fun urls =>
               Py.Ok (extract_first (xpath_abs text_ ["UrlTexto"] text) :: urls))
           else pending_texts_of rest)
  end.

(** [parse_texts]: the manifest of the texts of a bill. *)
Definition parse_texts (response : selector) (bill : draft)
    (keywords : option string) : Py.result output :=
  Py.bind (pending_texts_of (xpath_abs response [] (named "Text")))
    (fun pending_texts => next_pdf_or_item bill keywords pending_texts).

(** [parse_pdf]; [bill], [urls] and [keywords] are the entries of
    [response.meta]. *)
Definition parse_pdf (response : pdf) (bill : draft) (urls : list text_url)
    (keywords : option string) : Py.result output :=
  let bill := collect_keywords bill (Some (text_from_pdf response)) in
  let pending_texts := urls in
  next_pdf_or_item bill keywords pending_texts.

(** *** The PDF stage as the transport drives it

    The transport answers the request in flight with a response and calls the
    request's callback on it.  [pdf_stage o response] is the invocation of
    [parse_pdf] that answers [o]; there is none when [o] is not a request for
    [parse_pdf]. *)
Definition pdf_stage (o : output) (response : pdf) : option (Py.result output) :=
  match o with
  | YRequest (Request _ parse_pdf_cb (MetaPdf bill urls keywords) _) =>
      Some (parse_pdf response bill urls keywords)
  | _ => None
  end.

(** One invocation of [parse_pdf] per response, in order, starting from what
    the previous stage ended in; a stage that raised has issued no request,
    so that no invocation follows it. *)
Fixpoint pdf_stages (o : Py.result output) (responses : list pdf)
    : option (Py.result output) :=
  match responses with
  | [] => Some o
  | response :: rest =>
      match o with
      | Py.Ok o' =>
          match pdf_stage o' response with
          | Some next => pdf_stages next rest
          | None => None
          end
      | Py.Raise _ => None
      end
  end.

(** The bill as [n] scans of PDF texts leave it. *)
Definition scanned (bill : draft) (responses : list pdf) : draft :=
  fold_left (fun b response => collect_keywords b (Some (text_from_pdf response)))
    responses bill.

End Spider.

(** The PendingTextQueue of a bill, read off what the last stage returned:
    the URLs whose text has not been scanned yet, that is the URL of the
    request in flight followed by the [urls] of its meta.  It is empty once
    the bill is finalized. *)
Definition pending (o : output) : list text_url :=
  match o with
  | YRequest (Request u parse_pdf_cb (MetaPdf _ urls _) _) => u :: urls
  | _ => []
  end.

(** Whether a fetch of a PDF has been issued. *)
Definition awaits_pdf (o : output) : bool :=
  match o with
  | YRequest (Request _ parse_pdf_cb _ _) => true
  | _ => false
  end.

(** The bill that travels in the meta of a request. *)
Definition bill_in_flight (o : output) : option draft :=
  match o with
  | YRequest (Request _ _ (MetaBill bill _ _) _) => Some bill
  | YRequest (Request _ _ (MetaPdf bill _ _) _) => Some bill
  | _ => None
  end.

(** *** The manifest parser as the spec words it

    For each document entry, read that entry's own type tag and its own URL;
    keep the entry only if its own type tag denotes PDF. *)

(** [sel.xpath('.//e1/.../ek/t')]: the path evaluated below the context
    node. *)
Definition xpath_below (sel : selector) (elems : list string) (t : test)
    : list selector :=
  Selector (document sel) <$>
    flat_map (select (rev elems) t []) (children (context sel)).

Definition own_type_tag (entry : selector) : option string :=
  extract_first (xpath_below entry ["TipoDocumento"] text).

Definition carries_type_tag (entry : selector) : bool :=
  match own_type_tag entry with
  | Some _ => true
  | None => false
  end.

Definition own_url (entry : selector) : text_url :=
  extract_first (xpath_below entry ["UrlTexto"] text).

(** [s.lower()] on the letters A to Z. *)
Definition lower_ascii (c : ascii) : ascii :=
  let n := nat_of_ascii c in
  if (65 <=? n)%nat && (n <=? 90)%nat then ascii_of_nat (n + 32) else c.

Fixpoint lower (s : string) : string :=
  match s with
  | EmptyString => EmptyString
  | String c s' => String (lower_ascii c) (lower s')
  end.

Definition denotes_pdf (tag : option string) : bool :=
  match tag with
  | Some s => String.eqb (lower s) "pdf"
  | None => false
  end.

Definition pending_texts_contract (response : selector) : list text_url :=
  own_url <$>
    List.filter (fun entry => denotes_pdf (own_type_tag entry))
      (xpath_abs response [] (named "Text")).

End Senado.

(** ** The regular expressions of the agenda filter

    The fragment of Python's [re] that the pattern [r'{} ?\d+'] needs: a
    pattern is a sequence of single-character atoms, each taken once, at most
    once ([?]) or at least once ([+]); the quantifiers are greedy and the
    matcher backtracks.  A text is a list of code points. *)

Module Re.

Abbreviation codepoint := N.

Definition codepoints (s : string) : list codepoint :=
  N_of_ascii <$> list_ascii_of_string s.

Inductive atom : Type :=
| Lit (c : codepoint)
| Digit.

Inductive quantifier : Type :=
| Once
| Optional
| OneOrMore.

Abbreviation pattern := (list (atom * quantifier)).

Section Matching.

(** The class [\d] of a [str] pattern: the code points of Unicode's category
    of decimal digits, a table of the Python runtime. *)
Variable decimal : codepoint -> bool.

Definition atom_matches (a : atom) (c : codepoint) : bool :=
  match a with
  | Lit x => N.eqb x c
  | Digit => decimal c
  end.

(** [match_here p s]: the pattern [p] matched at the start of [s]; the result
    is what is left of [s] after the match the engine finds first. *)
Fixpoint match_here (p : pattern) (s : list codepoint) : option (list codepoint) :=
  match p with
  | [] => Some s
  | (a, Once) :: p' =>
      match s with
      | c :: s' => if atom_matches a c then match_here p' s' else None
      | [] => None
      end
  | (a, Optional) :: p' =>
      let taken :=
        match s with
        | c :: s' => if atom_matches a c then match_here p' s' else None
        | [] => None
        end in
      match taken with
      | Some r => Some r
      | None => match_here p' s
      end
  | (a, OneOrMore) :: p' =>
      (fix more (s : list codepoint) : option (list codepoint) :=
         match s with
         | c :: s' =>
             if atom_matches a c then
               match more s' with
               | Some r => Some r
               | None => match_here p' s'
               end
             else None
         | [] => None
         end) s
  end.

(** [re.findall(p, s)]: the matches of [p] in [s], from left to right and
    without overlap; [skip] counts the characters still inside the previous
    match. *)
Fixpoint findall_from (p : pattern) (skip : nat) (s : list codepoint)
    : list (list codepoint) :=
  match skip with
  | S k =>
      match s with
      | [] => []
      | _ :: s' => findall_from p k s'
      end
  | O =>
      match match_here p s with
      | Some r =>
          let m := take (length s - length r) s in
          m :: match s with
               | [] => []
               | _ :: s' => findall_from p (length m - 1) s'
               end
      | None =>
          match s with
          | [] => []
          | _ :: s' => findall_from p 0 s'
          end
      end
  end.

Definition findall (p : pattern) (s : list codepoint) : list (list codepoint) :=
  findall_from p 0 s.

End Matching.

(** The pattern [r'{} ?\d+'.format(subject)], for a subject without
    metacharacters. *)
Definition subject_pattern (subject : string) : pattern :=
  ((fun c => (Lit c, Once)) <$> codepoints subject)
    ++ [(Lit 32%N, Optional); (Digit, OneOrMore)].

End Re.

(** ** [AgendaSenadoSpider] *)

Module Agenda.
Import Xml.

(** [is_related_to_a_bill]; [event_text] is [event.extract()]. *)
Definition is_related_to_a_bill (decimal : Re.codepoint -> bool)
    (event_text : list Re.codepoint) : bool :=
  existsb
    (fun subject =>
       Py.nonempty (Re.findall decimal (Re.subject_pattern subject) event_text))
    Senado.subjects.

(** The selection and the two fields [parse_invitees] reads. *)
Definition invitees_of (event : selector) : list selector :=
  xpath_rel event
    [named "Partes"; named "Parte"; named "Eventos"; named "Convidados";
     named "Convidado"].

Definition invitee_name (invitee : selector) : option string :=
  extract_first (xpath_rel invitee [named "Nome"; text]).

Definition invitee_title (invitee : selector) : option string :=
  extract_first (xpath_rel invitee [named "Cargo"; text]).

(** [parse_invitees]. *)
Definition parse_invitees (event : selector) : list string :=
  (fun invitee =>
     let name := invitee_name invitee in
     let title := invitee_title invitee in
     "* " +:+ Py.str name +:+ " (" +:+ Py.str title +:+ ")")
  <$> invitees_of event.

(** The four fragments of [parse_description] before their headings. *)
Definition objective_of (event : selector) : string :=
  Py.or_empty (extract_first (xpath_rel event
    [named "Partes"; named "Parte"; named "Finalidade"; text])).

Definition ps_of (event : selector) : string :=
  Py.or_empty (extract_first (xpath_rel event
    [named "Partes"; named "Parte"; named "Eventos"; named "Evento";
     named "Observacoes"; text])).

Definition items_of (event : selector) : string :=
  Py.join ", " (extract (xpath_rel event
    [named "Partes"; named "Parte"; named "Itens"; named "Item"; named "Nome";
     text])).

(** [parse_description]. *)
Definition parse_description (event : selector) : string :=
  let objective := objective_of event in
  let objective :=
    if Py.truthy objective then "**Finalidade**" +:+ Py.nl +:+ objective
    else objective in
  let ps := ps_of event in
  let ps :=
    if Py.truthy ps then "**Observações**" +:+ Py.nl +:+ ps else ps in
  let invitees := parse_invitees event in
  let invitees :=
    if Py.nonempty invitees then
      let invitee_list := Py.join Py.nl invitees in
      "**Convidados**" +:+ Py.nl +:+ Py.nl +:+ invitee_list
    else "" in
  let items := items_of event in
  let items :=
    if Py.truthy items then "**Pauta**" +:+ Py.nl +:+ " " +:+ items else items in
  let contents := List.filter Py.truthy [objective; items; ps; invitees] in
  Py.join (Py.nl +:+ Py.nl) contents.

(** *** The filter as the spec words it

    The text contains the subject code, then at most one space, then one or
    more digits. *)
Definition mentions (decimal : Re.codepoint -> bool) (subject : string)
    (event_text : list Re.codepoint) : Prop :=
  exists before spaces digits after : list Re.codepoint,
    event_text = (before ++ Re.codepoints subject ++ spaces ++ digits ++ after)%list
    /\ (spaces = [] \/ spaces = [32%N])
    /\ digits <> []
    /\ forallb decimal digits = true.

(** The digits 0 to 9 of ASCII, which are decimal digits of Unicode. *)
Definition ascii_digit (c : Re.codepoint) : bool :=
  (48 <=? c)%N && (c <=? 57)%N.

(** *** The composer as the spec words it

    Each non-empty fragment labelled with its fixed heading, the labelled
    fragments joined with a blank line, in the order objective, items,
    observations, invitees. *)
Definition headings : list string :=
  ["**Finalidade**" +:+ Py.nl;
   "**Pauta**" +:+ Py.nl +:+ " ";
   "**Observações**" +:+ Py.nl;
   "**Convidados**" +:+ Py.nl +:+ Py.nl].

Definition labelled (heading_fragment : string * string) : list string :=
  if Py.truthy (snd heading_fragment)
  then [fst heading_fragment +:+ snd heading_fragment]
  else [].

Definition compose_contract (objective items observations invitees : string)
    : string :=
  Py.join (Py.nl +:+ Py.nl)
    (flat_map labelled (zip headings [objective; items; observations; invitees])).

(** The invitee fragment: one invitee per line. *)
Definition invitees_fragment (event : selector) : string :=
  Py.join Py.nl (parse_invitees event).

(** An invitee as the spec words it: the name, a space and the role in
    parentheses. *)
Definition invitee_as_stated (invitee : selector) : string :=
  Py.str (invitee_name invitee) +:+ " (" +:+ Py.str (invitee_title invitee) +:+ ")".

(** *** The feed of events

    [parse] and [parse_date].  What the standard library and lxml do is given:
    the markup [event.extract()] of a meeting, the parser
    [datetime.strptime(s, '%d/%m/%Y %H:%M')], which returns a naive datetime
    or raises, and [replace(tzinfo=timezone('America/Sao_Paulo'))]. *)

(** An [Event] item; [T] is the type of its timestamp. *)
Record Event (T : Type) : Type := MkEvent {
  origem : string;
  id_site : option string;
  data : T;
  descricao : string;
  local : option string
}.
Arguments MkEvent {T}.
Arguments origem {T}.
Arguments id_site {T}.
Arguments data {T}.
Arguments descricao {T}.
Arguments local {T}.

Section Feed.

Context {naive datetime error : Type}.
Variable extract_markup : selector -> list Re.codepoint.
Variable decimal : Re.codepoint -> bool.
Variable strptime : string -> naive + error.
Variable in_sao_paulo : naive -> datetime.

(** [parse_date]. *)
Definition parse_date (event : selector) : datetime + error :=
  let date_ := extract_first (xpath_rel event [named "Data"; text]) in
  let time_ := extract_first (xpath_rel event [named "Hora"; text]) in
  match strptime (Py.str date_ +:+ " " +:+ Py.str time_) with
  | inl result => inl (in_sao_paulo result)
  | inr e => inr e
  end.

(** The [Event] that [parse] builds for a meeting whose date is [d]. *)
Definition event_of (event : selector) (d : datetime) : Event datetime :=
  MkEvent "SE"
    (extract_first (xpath_rel event [named "Codigo"; text]))
    d
    (parse_description event)
    (extract_first (xpath_rel event
       [named "Comissoes"; named "Comissao"; named "Nome"; text])).

(** The loop of [parse] over the meetings: the events it yields, and the
    exception that ends it, if any. *)
Fixpoint parse_events (events : list selector)
    : list (Event datetime) * option error :=
  match events with
  | [] => ([], None)
  | event :: rest =>
      if is_related_to_a_bill decimal (extract_markup event) then
        match parse_date event with
        | inl d =>
            let yielded := parse_events rest in
            (event_of event d :: fst yielded, snd yielded)
        | inr e => ([], Some e)
        end
      else parse_events rest
  end.

(** [parse]: the page that lists the meetings. *)
Definition parse (response : selector) : list (Event datetime) * option error :=
  parse_events (xpath_rel response [named "Reuniao"]).

(** The meetings of a page that pass the filter. *)
Definition related_meetings (response : selector) : list selector :=
  List.filter (fun event => is_related_to_a_bill decimal (extract_markup event))
    (xpath_rel response [named "Reuniao"]).

End Feed.

End Agenda.

(** ** Concrete responses *)

Module Inputs.
Import Xml.

(** A manifest with one text, tagged as a PDF. *)
Definition manifest_one_pdf : node :=
  Element "Textos"
    [Element "Text"
       [Element "TipoDocumento" [Chars "pdf"];
        Element "UrlTexto" [Chars "http://legis.senado.leg.br/texto/1.pdf"]]].

(** A manifest with one text that has no type tag. *)
Definition manifest_untagged : node :=
  Element "Textos"
    [Element "Text"
       [Element "UrlTexto" [Chars "http://legis.senado.leg.br/texto/2.pdf"]]].

(** An event with a purpose and nothing else. *)
Definition event_objective_only : node :=
  Element "Reuniao"
    [Element "Codigo" [Chars "8814"];
     Element "Partes"
       [Element "Parte" [Element "Finalidade" [Chars "Discuss budget"]]]].

(** An event with one invitee and nothing else. *)
Definition event_one_invitee : node :=
  Element "Reuniao"
    [Element "Partes"
       [Element "Parte"
          [Element "Eventos"
             [Element "Convidados"
                [Element "Convidado"
                   [Element "Nome" [Chars "Ana Souza"];
                    Element "Cargo" [Chars "Senadora"]]]]]]].

(** A bill as the detail stage leaves it when nothing matched. *)
Definition bill_without_keywords : Senado.draft :=
  Senado.Item (∅ : gset string) (Some "ORCAMENTO") "PLS 12" (Some "128")
    (Some "2019-02-05") (Some "Altera a lei") (Some "Plenario") "SE"
    (Senado.urls_humans "128") (Some "Ana Souza") (Some "5").

(** A matcher that finds the whole text as its one keyword. *)
Definition whole_text (text : option string) : gset string :=
  match text with
  | Some s => {[ s ]}
  | None => ∅
  end.

(** A PDF is given by its text. *)
Definition text_of_pdf (body : string) : string := body.

(** The character data below a node, as a stand-in for its markup. *)
Fixpoint character_data (n : node) : string :=
  match n with
  | Chars d => d
  | Element _ cs => String.concat " " (map character_data cs)
  end.

Definition markup_of (sel : selector) : list Re.codepoint :=
  Re.codepoints (character_data (context sel)).

(** A parser of dates that knows one date. *)
Definition strptime_one (s : string) : string + string :=
  if String.eqb s "05/02/2019 10:00" then inl s else inr "ValueError".

Definition meeting (code date_ subject : string) : node :=
  Element "Reuniao"
    [Element "Codigo" [Chars code];
     Element "Data" [Chars date_];
     Element "Hora" [Chars "10:00"];
     Element "Partes"
       [Element "Parte" [Element "Finalidade" [Chars subject]]]].

(** An agenda whose only meeting without a readable date is not about a
    bill. *)
Definition agenda_dates_good : node :=
  Element "Reunioes"
    [meeting "1" "05/02/2019" "Votar o PLS 123";
     meeting "2" "amanha" "Eleger o presidente"].

(** An agenda whose second meeting about a bill has no readable date. *)
Definition agenda_date_bad : node :=
  Element "Reunioes"
    [meeting "1" "05/02/2019" "Votar o PLS 123";
     meeting "2" "amanha" "Votar a PEC 45";
     meeting "3" "05/02/2019" "Votar o PLC 7"].

(** A page that lists two bills. *)
Definition list_two_bills : node :=
  Element "ListaMateriasTramitando"
    [Element "Materias"
       [Element "Materia" [Element "CodigoMateria" [Chars "128"]];
        Element "Materia" [Element "CodigoMateria" [Chars "129"]]]].

(** Three texts of a bill. *)
Definition three_texts : list (option string) :=
  [Some "http://legis.senado.leg.br/texto/1.pdf";
   Some "http://legis.senado.leg.br/texto/2.pdf";
   Some "http://legis.senado.leg.br/texto/3.pdf"].

(** A stand-in for Scrapy's test of a URL. *)
Definition has_scheme (s : string) : bool :=
  String.prefix "http://" s || String.prefix "https://" s.

(** An event with the four fragments, two items and two invitees. *)
Definition event_all_fragments : node :=
  Element "Reuniao"
    [Element "Codigo" [Chars "8815"];
     Element "Partes"
       [Element "Parte"
          [Element "Finalidade" [Chars "Discuss budget"];
           Element "Itens"
             [Element "Item" [Element "Nome" [Chars "PLS 123/2019"]];
              Element "Item" [Element "Nome" [Chars "PEC 45/2019"]]];
           Element "Eventos"
             [Element "Evento" [Element "Observacoes" [Chars "Sala 3"]];
              Element "Convidados"
                [Element "Convidado"
                   [Element "Nome" [Chars "Ana Souza"];
                    Element "Cargo" [Chars "Senadora"]];
                 Element "Convidado"
                   [Element "Nome" [Chars "Rui Lima"];
                    Element "Cargo" [Chars "Relator"]]]]]]].

(** The same event without observations. *)
Definition event_without_observations : node :=
  Element "Reuniao"
    [Element "Codigo" [Chars "8816"];
     Element "Partes"
       [Element "Parte"
          [Element "Finalidade" [Chars "Discuss budget"];
           Element "Itens"
             [Element "Item" [Element "Nome" [Chars "PLS 123/2019"]];
              Element "Item" [Element "Nome" [Chars "PEC 45/2019"]]];
           Element "Eventos"
             [Element "Convidados"
                [Element "Convidado"
                   [Element "Nome" [Chars "Ana Souza"];
                    Element "Cargo" [Chars "Senadora"]];
                 Element "Convidado"
                   [Element "Nome" [Chars "Rui Lima"];
                    Element "Cargo" [Chars "Relator"]]]]]]].

End Inputs.

(** * Properties of the XPath evaluation *)

Section XmlProperties.
Import Xml.

Lemma node_ind_nested (P : node -> Prop)
    (HE : forall tag cs, Forall P cs -> P (Element tag cs))
    (HC : forall d, P (Chars d)) :
  forall n, P n.
Proof.
  fix IH 1. intros [tag cs|d]; [|apply HC].
  apply HE. induction cs as [|c cs IHcs]; constructor; [apply IH | exact IHcs].
Qed.

Lemma starts_with_app ps : forall a b,
  starts_with ps a = true -> starts_with ps (a ++ b) = true.
Proof.
  induction ps as [|p ps IH]; intros [|x a] b; simpl; try congruence.
  intros [-> H]%andb_prop. rewrite (IH _ _ H). reflexivity.
Qed.

(** Naming more distant ancestors loses no node of a selection. *)
Lemma select_anc_app ps t n : forall a b x,
  In x (select ps t a n) -> In x (select ps t (a ++ b) n).
Proof.
  induction n as [tag cs IH|d] using node_ind_nested; intros a b x; simpl;
    rewrite !in_app_iff.
  - intros [Hx|Hx].
    + left. destruct (node_test t (Element tag cs)); simpl in *; [|tauto].
      destruct (starts_with ps a) eqn:E; [|destruct Hx].
      rewrite (starts_with_app _ _ b E). exact Hx.
    + right. apply in_flat_map in Hx as (c & Hc & Hx). apply in_flat_map.
      exists c. split; [exact Hc|].
      rewrite Forall_forall in IH.
      apply (IH c (proj2 (list_elem_of_In _ _) Hc) (tag :: a) b x Hx).
  - intros [Hx|[]]. left.
    destruct (node_test t (Chars d)); simpl in *; [|tauto].
    destruct (starts_with ps a) eqn:E; [|destruct Hx].
    rewrite (starts_with_app _ _ b E). exact Hx.
Qed.

(** What a path selects below a node of the document, it selects in the
    document. *)
Lemma select_below ps t ps' t' n : forall anc e x,
  In e (select ps' t' anc n) ->
  In x (flat_map (select ps t []) (children e)) ->
  In x (select ps t anc n).
Proof.
  induction n as [tag cs IH|d] using node_ind_nested; intros anc e x; simpl;
    rewrite !in_app_iff.
  - intros [He|He] Hx.
    + destruct (_ && _); [|destruct He].
      destruct He as [<-|[]]. right. simpl in Hx.
      apply in_flat_map in Hx as (c & Hc & Hx). apply in_flat_map.
      exists c. split; [exact Hc|].
      apply (select_anc_app ps t c [] (tag :: anc) x Hx).
    + right. apply in_flat_map in He as (c & Hc & He). apply in_flat_map.
      exists c. split; [exact Hc|].
      rewrite Forall_forall in IH.
      apply (IH c (proj2 (list_elem_of_In _ _) Hc) (tag :: anc) e x He Hx).
  - intros [He|[]] Hx.
    destruct (_ && _); [|destruct He].
    destruct He as [<-|[]]. destruct Hx.
Qed.

Lemma extract_selection doc (ns : list node) :
  extract (Selector doc <$> ns) = omap chars ns.
Proof.
  unfold extract. induction ns as [|n ns IH]; [reflexivity|].
  cbn [fmap list_fmap omap list_omap context]. fold (fmap (M:=list) (Selector doc) ns).
  fold (omap (M:=list) (fun s => chars (context s)) (Selector doc <$> ns)).
  rewrite IH. reflexivity.
Qed.

Lemma xpath_abs_document sel elems t e :
  In e (xpath_abs sel elems t) -> document e = document sel.
Proof.
  unfold xpath_abs. intros He%list_elem_of_In.
  apply list_elem_of_fmap in He as (n & -> & _). reflexivity.
Qed.

Lemma xpath_abs_same_document sel sel' elems t :
  document sel = document sel' -> xpath_abs sel elems t = xpath_abs sel' elems t.
Proof. unfold xpath_abs. intros ->. reflexivity. Qed.

End XmlProperties.

(** * Properties of [SenadoSpider]: the queue of texts and the finalization *)

Section SenadoProperties.
Import Senado.

Context {matcher pdf : Type}.
Variable MATCHERS : list matcher.
Variable accepts_url : string -> bool.
Variable matchKeywords : option string -> gset string.
Variable text_from_pdf : pdf -> string.

Local Abbreviation next_step := (next_pdf_or_item MATCHERS accepts_url).
Local Abbreviation scan :=
  (parse_pdf MATCHERS accepts_url matchKeywords text_from_pdf).
Local Abbreviation stages :=
  (pdf_stages MATCHERS accepts_url matchKeywords text_from_pdf).
Local Abbreviation collect := (collect_keywords matchKeywords).
Local Abbreviation after_scans := (scanned matchKeywords text_from_pdf).

Lemma nonempty_nil_iff {A} (l : list A) : Py.nonempty l = false <-> l = [].
Proof. destruct l; simpl; split; congruence. Qed.

Lemma truthy_empty_iff (s : string) : Py.truthy s = false <-> s = "".
Proof. destruct s; simpl; split; congruence. Qed.

(** The empty queue ends in the record or in [None], never in a request or
    an exception. *)
Lemma next_step_nil_cases bill keywords :
  next_step bill keywords []
  = Py.Ok (YBill (set_palavras_chave
                    (Py.join ", " (elements (palavras_chave bill))) bill))
  \/ next_step bill keywords [] = Py.Ok YNone.
Proof.
  simpl. destruct (negb (Py.nonempty MATCHERS)); [auto|].
  destruct (Py.truthy _); auto.
Qed.

Lemma next_step_cons_ok bill keywords u us :
  fetchable accepts_url u = true ->
  next_step bill keywords (u :: us)
  = Py.Ok (YRequest (Request u parse_pdf_cb (MetaPdf bill us keywords) true)).
Proof.
  destruct u as [s|]; simpl; [|discriminate]. intros ->. reflexivity.
Qed.

Lemma next_step_cons_inv bill keywords u us o :
  next_step bill keywords (u :: us) = Py.Ok o ->
  fetchable accepts_url u = true
  /\ o = YRequest (Request u parse_pdf_cb (MetaPdf bill us keywords) true).
Proof.
  destruct u as [s|]; simpl; [|discriminate].
  destruct (accepts_url s); [|discriminate]. intros [= <-]. auto.
Qed.

Lemma pending_next_step bill keywords q o :
  next_step bill keywords q = Py.Ok o -> pending o = q.
Proof.
  destruct q as [|u us].
  - destruct (next_step_nil_cases bill keywords) as [-> | ->];
      intros [= <-]; reflexivity.
  - intros [_ ->]%next_step_cons_inv. reflexivity.
Qed.

Lemma awaits_pdf_next_step bill keywords q o :
  next_step bill keywords q = Py.Ok o -> awaits_pdf o = Py.nonempty q.
Proof.
  destruct q as [|u us].
  - destruct (next_step_nil_cases bill keywords) as [-> | ->];
      intros [= <-]; reflexivity.
  - intros [_ ->]%next_step_cons_inv. reflexivity.
Qed.

Lemma pdf_stage_finalized bill keywords o response :
  next_step bill keywords [] = Py.Ok o ->
  pdf_stage MATCHERS accepts_url matchKeywords text_from_pdf o response = None.
Proof.
  destruct (next_step_nil_cases bill keywords) as [-> | ->];
    intros [= <-]; reflexivity.
Qed.

Lemma next_step_nil_ok bill keywords :
  exists o, next_step bill keywords [] = Py.Ok o.
Proof. destruct (next_step_nil_cases bill keywords) as [-> | ->]; eauto. Qed.

Lemma scanned_cons bill response responses :
  after_scans bill (response :: responses)
  = after_scans (collect bill (Some (text_from_pdf response))) responses.
Proof. reflexivity. Qed.

Lemma scanned_app bill rs1 rs2 :
  after_scans bill (rs1 ++ rs2) = after_scans (after_scans bill rs1) rs2.
Proof. unfold scanned. apply fold_left_app. Qed.

(** What the drain ends in after any number of invocations of [parse_pdf],
    when it got that far: as many scans of the bill, and that many URLs gone
    from the queue. *)
Lemma pdf_stages_inv responses : forall bill keywords q res,
  stages (next_step bill keywords q) responses = Some res ->
  (length responses <= length q)%nat
  /\ res = next_step (after_scans bill responses) keywords
             (drop (length responses) q).
Proof.
  induction responses as [|r rs IH]; intros bill keywords q res.
  - cbn [pdf_stages]. intros [= <-]. split; [simpl; lia | reflexivity].
  - destruct q as [|u us].
    + cbn [pdf_stages].
      destruct (next_step_nil_ok bill keywords) as [o Ho]. rewrite Ho.
      rewrite (pdf_stage_finalized _ _ _ _ Ho). discriminate.
    + cbn [pdf_stages].
      destruct (next_step bill keywords (u :: us)) as [o|e] eqn:Hn;
        [|discriminate].
      apply next_step_cons_inv in Hn as [_ ->].
      cbn [pdf_stage]. unfold parse_pdf. intros H.
      apply IH in H as [Hle ->]. split; [simpl; lia | reflexivity].
Qed.

(** The drain gets as far as the URLs let it: when the URLs before position
    [n] are ones [Request] takes, [n] invocations are possible exactly when
    the queue has [n] URLs. *)
Lemma pdf_stages_spec responses : forall bill keywords q,
  forallb (fetchable accepts_url) (take (length responses) q) = true ->
  stages (next_step bill keywords q) responses
  = if decide (length responses <= length q)%nat
    then Some (next_step (after_scans bill responses) keywords
                 (drop (length responses) q))
    else None.
Proof.
  induction responses as [|r rs IH]; intros bill keywords q Hok.
  - cbn [pdf_stages scanned fold_left].
    case_decide; [reflexivity | simpl in *; lia].
  - destruct q as [|u us].
    + cbn [pdf_stages].
      destruct (next_step_nil_ok bill keywords) as [o Ho]. rewrite Ho.
      rewrite (pdf_stage_finalized _ _ _ _ Ho).
      case_decide; [simpl in *; lia | reflexivity].
    + simpl in Hok. apply andb_prop in Hok as [Hu Hok].
      cbn [pdf_stages]. rewrite (next_step_cons_ok _ _ _ _ Hu).
      cbn [pdf_stage]. unfold parse_pdf. rewrite (IH _ _ _ Hok), scanned_cons.
      case_decide; case_decide; simpl in *; solve [reflexivity | lia].
Qed.

Lemma forallb_take_all {A} (f : A -> bool) (l : list A) n :
  forallb f l = true -> forallb f (take n l) = true.
Proof.
  revert n. induction l as [|x l IH]; intros [|n]; simpl; try reflexivity.
  intros [-> H]%andb_prop. rewrite (IH _ H). reflexivity.
Qed.

Lemma forallb_drop_all {A} (f : A -> bool) (l : list A) n :
  forallb f l = true -> forallb f (drop n l) = true.
Proof.
  revert n. induction l as [|x l IH]; intros [|n]; simpl; try reflexivity.
  - intros H. exact H.
  - intros [_ H]%andb_prop. apply (IH _ H).
Qed.

Lemma next_step_fetchable bill keywords q :
  forallb (fetchable accepts_url) q = true ->
  exists o, next_step bill keywords q = Py.Ok o.
Proof.
  destruct q as [|u us]; [intros _; apply next_step_nil_ok|].
  simpl forallb. intros [Hu _]%andb_prop.
  rewrite (next_step_cons_ok _ _ _ _ Hu). eauto.
Qed.

Lemma collect_keywords_grows data text :
  palavras_chave data ⊆ palavras_chave (collect data text).
Proof. unfold collect_keywords. simpl. apply union_subseteq_l. Qed.

Lemma scanned_grows responses : forall bill,
  palavras_chave bill ⊆ palavras_chave (after_scans bill responses).
Proof.
  induction responses as [|r rs IH]; intros bill; [reflexivity|].
  rewrite scanned_cons. etransitivity; [|apply IH].
  apply collect_keywords_grows.
Qed.

Lemma bill_in_flight_next_step_inv bill keywords q o b :
  next_step bill keywords q = Py.Ok o ->
  bill_in_flight o = Some b -> b = bill /\ q <> [].
Proof.
  destruct q as [|u us].
  - destruct (next_step_nil_cases bill keywords) as [-> | ->];
      intros [= <-]; discriminate.
  - intros [_ ->]%next_step_cons_inv [= <-]. split; [reflexivity | discriminate].
Qed.

(** C1: when the queue of pending texts is empty, [next_pdf_or_item] first
    replaces the set of matched keywords by the string that joins them with
    [', ']; without a keyword-match configuration ([settings.MATCHERS] empty)
    the record is emitted whatever the keywords, also with none matched; with
    a configuration the record is emitted exactly when the joined string is
    not empty, and otherwise nothing ([None]) is produced. *)
Theorem finalization_emits_or_discards (bill : draft) (keywords : option string) :
  let joined := Py.join ", " (elements (palavras_chave bill)) in
  let record := set_palavras_chave joined bill in
  (MATCHERS = [] ->
   next_pdf_or_item MATCHERS accepts_url bill keywords [] = Py.Ok (YBill record))
  /\ (MATCHERS = [] -> palavras_chave bill = ∅ ->
      next_pdf_or_item MATCHERS accepts_url bill keywords [] = Py.Ok (YBill record)
      /\ palavras_chave record = "")
  /\ (MATCHERS <> [] ->
      (next_pdf_or_item MATCHERS accepts_url bill keywords [] = Py.Ok (YBill record)
       <-> joined <> "")
      /\ (joined = ""
          <-> next_pdf_or_item MATCHERS accepts_url bill keywords [] = Py.Ok YNone))
  /\ (MATCHERS <> [] -> palavras_chave bill = ∅ ->
      next_pdf_or_item MATCHERS accepts_url bill keywords [] = Py.Ok YNone).
Proof.
  intros joined record.
  assert (Hno : MATCHERS = [] -> next_step bill keywords [] = Py.Ok (YBill record)).
  { intros ->. reflexivity. }
  assert (Hyes : MATCHERS <> [] ->
            next_step bill keywords [] =
            if Py.truthy joined then Py.Ok (YBill record) else Py.Ok YNone).
  { intros Hm. simpl. destruct MATCHERS; [congruence | reflexivity]. }
  assert (Hempty : palavras_chave bill = ∅ -> joined = "").
  { intros He. subst joined. rewrite He, elements_empty. reflexivity. }
  split; [exact Hno|]. split.
  { intros Hm He. split; [auto|]. simpl. auto. }
  split.
  - intros Hm. rewrite (Hyes Hm).
    destruct (Py.truthy joined) eqn:Ht.
    + assert (joined <> "") by (rewrite <- truthy_empty_iff; congruence).
      split; split; intros; try congruence; try discriminate.
    + apply truthy_empty_iff in Ht.
      split; split; intros; try congruence; try discriminate.
  - intros Hm He. rewrite (Hyes Hm), (Hempty He). reflexivity.
Qed.

(** C2: when the queue of pending texts holds URLs that [Request] takes,
    every invocation of [parse_pdf] takes exactly one URL off the bill's queue
    (the URL it was called for): from a queue of length L, N invocations
    leave a queue of length max(L - N, 0), namely the queue without its first
    N URLs, no invocation raises, and a further fetch of a PDF is issued
    exactly when the remaining queue is not empty.  There are at most L
    invocations: once the queue is empty the bill is finalized and no request
    is left to answer. *)
Theorem queue_drains_one_per_pdf_stage (bill : draft) (keywords : option string)
    (q : list text_url) (responses : list pdf) :
  forallb (fetchable accepts_url) q = true ->
  (exists o,
     next_pdf_or_item MATCHERS accepts_url bill keywords q = Py.Ok o
     /\ pending o = q)
  /\ (forall response u urls,
        q = u :: urls ->
        exists o o',
          next_pdf_or_item MATCHERS accepts_url bill keywords q = Py.Ok o
          /\ pdf_stage MATCHERS accepts_url matchKeywords text_from_pdf o response
             = Some (scan response bill urls keywords)
          /\ scan response bill urls keywords = Py.Ok o'
          /\ pending o' = urls
          /\ awaits_pdf o' = Py.nonempty urls)
  /\ match stages (next_pdf_or_item MATCHERS accepts_url bill keywords q) responses with
     | Some (Py.Ok o) =>
         (length responses <= length q)%nat
         /\ Z.of_nat (length (pending o))
            = Z.max (Z.of_nat (length q) - Z.of_nat (length responses)) 0
         /\ pending o = drop (length responses) q
         /\ (awaits_pdf o = true <-> pending o <> [])
     | Some (Py.Raise _) => False
     | None => (length q < length responses)%nat
     end.
Proof.
  intros Hq. split; [|split].
  - destruct (next_step_fetchable bill keywords q Hq) as [o Ho].
    exists o. split; [exact Ho | apply (pending_next_step _ _ _ _ Ho)].
  - intros response u urls ->. simpl in Hq. apply andb_prop in Hq as [Hu Hurls].
    destruct (next_step_fetchable
                (collect bill (Some (text_from_pdf response))) keywords urls Hurls)
      as [o' Ho'].
    eexists _, o'. split; [apply (next_step_cons_ok _ _ _ _ Hu)|].
    split; [reflexivity|]. split; [exact Ho'|].
    split; [apply (pending_next_step _ _ _ _ Ho')
           | apply (awaits_pdf_next_step _ _ _ _ Ho')].
  - rewrite pdf_stages_spec by (apply forallb_take_all; exact Hq).
    case_decide; [|lia].
    destruct (next_step_fetchable (after_scans bill responses) keywords
                (drop (length responses) q)) as [o Ho];
      [apply forallb_drop_all; exact Hq|].
    rewrite Ho.
    rewrite (pending_next_step _ _ _ _ Ho), (awaits_pdf_next_step _ _ _ _ Ho).
    split; [assumption|]. split; [rewrite length_drop; lia|].
    split; [reflexivity|].
    destruct (drop (length responses) q); simpl; split; congruence.
Qed.

(** C5: the set of matched keywords of a bill only grows from stage to
    stage.  Each call of [collect_keywords] keeps the keywords it finds in the
    set; the detail stage seeds the empty set with the matches of the
    description and of the keyword index; the authorship stage leaves the set
    as it is; each scan of a PDF hands a superset to the next step; and of
    two stages of the drain, the later carries a superset of the earlier,
    which carries a superset of the set the drain started with.
    ([collect_keywords] is modelled from the spec.) *)
Theorem matched_keywords_only_grow :
  (forall data text, palavras_chave data ⊆ palavras_chave (collect data text))
  /\ (forall response code,
        exists bill keywords,
          parse_bill matchKeywords response code
          = Request (Some (urls_authorship code)) parse_authorship_cb
              (MetaBill bill keywords code) true
          /\ palavras_chave bill
             = matchKeywords (ementa bill) ∪ matchKeywords keywords)
  /\ (forall response bill keywords code,
        exists bill',
          parse_authorship response bill keywords code
          = Request (Some (urls_texts code)) parse_texts_cb
              (MetaBill bill' keywords code) true
          /\ palavras_chave bill' = palavras_chave bill)
  /\ (forall response bill urls keywords,
        exists bill',
          scan response bill urls keywords = next_step bill' keywords urls
          /\ palavras_chave bill ⊆ palavras_chave bill')
  /\ (forall bill keywords q rs1 rs2 o1 o2 b1 b2,
        stages (next_step bill keywords q) rs1 = Some (Py.Ok o1) ->
        stages (next_step bill keywords q) (rs1 ++ rs2) = Some (Py.Ok o2) ->
        bill_in_flight o1 = Some b1 ->
        bill_in_flight o2 = Some b2 ->
        palavras_chave bill ⊆ palavras_chave b1
        /\ palavras_chave b1 ⊆ palavras_chave b2).
Proof.
  split; [apply collect_keywords_grows|]. split.
  { intros response code. eexists _, _. split; [reflexivity|].
    simpl. rewrite union_empty_l_L. reflexivity. }
  split.
  { intros response bill keywords code. eexists. split; reflexivity. }
  split.
  { intros response bill urls keywords. eexists. split; [reflexivity|].
    apply collect_keywords_grows. }
  intros bill keywords q rs1 rs2 o1 o2 b1 b2 H1 H2 Hb1 Hb2.
  apply pdf_stages_inv in H1 as [_ H1]. apply pdf_stages_inv in H2 as [_ H2].
  symmetry in H1, H2.
  apply (bill_in_flight_next_step_inv _ _ _ _ _ H1) in Hb1 as [-> _].
  apply (bill_in_flight_next_step_inv _ _ _ _ _ H2) in Hb2 as [-> _].
  split; [apply scanned_grows|].
  rewrite scanned_app. apply scanned_grows.
Qed.

End SenadoProperties.

(** With a matcher configured and no keyword matched, nothing is emitted. *)
Lemma finalization_emits_or_discards_witness :
  [tt] <> []
  /\ Senado.palavras_chave Inputs.bill_without_keywords = ∅
  /\ Senado.next_pdf_or_item [tt] Inputs.has_scheme Inputs.bill_without_keywords
       (Some "ORCAMENTO") []
     = Py.Ok Senado.YNone.
Proof.
  assert (Hm : [tt] <> []) by discriminate.
  assert (He : Senado.palavras_chave Inputs.bill_without_keywords = ∅)
    by reflexivity.
  split; [exact Hm|]. split; [exact He|].
  exact (proj2 (proj2 (proj2
           (finalization_emits_or_discards [tt] Inputs.has_scheme
              Inputs.bill_without_keywords (Some "ORCAMENTO")))) Hm He).
Defined.

(** A queue of three URLs and one scan: two URLs are left and the second is
    being fetched. *)
Lemma queue_drains_one_per_pdf_stage_witness :
  forallb (Senado.fetchable Inputs.has_scheme) Inputs.three_texts = true
  /\ exists o,
       Senado.pdf_stages [tt] Inputs.has_scheme Inputs.whole_text
         Inputs.text_of_pdf
         (Senado.next_pdf_or_item [tt] Inputs.has_scheme
            Inputs.bill_without_keywords None Inputs.three_texts)
         ["saude"]
       = Some (Py.Ok o)
       /\ Senado.pending o = drop 1 Inputs.three_texts
       /\ Senado.awaits_pdf o = true.
Proof.
  assert (Hq : forallb (Senado.fetchable Inputs.has_scheme) Inputs.three_texts
               = true) by reflexivity.
  split; [exact Hq|].
  destruct (queue_drains_one_per_pdf_stage [tt] Inputs.has_scheme
              Inputs.whole_text Inputs.text_of_pdf
              Inputs.bill_without_keywords None Inputs.three_texts
              ["saude"] Hq) as (_ & _ & H).
  assert (E : Senado.pdf_stages [tt] Inputs.has_scheme Inputs.whole_text
                Inputs.text_of_pdf
                (Senado.next_pdf_or_item [tt] Inputs.has_scheme
                   Inputs.bill_without_keywords None Inputs.three_texts)
                ["saude"]
              = Some (Py.Ok
                  (Senado.YRequest
                     (Senado.Request (Some "http://legis.senado.leg.br/texto/2.pdf")
                        Senado.parse_pdf_cb
                        (Senado.MetaPdf
                           (Senado.collect_keywords Inputs.whole_text
                              Inputs.bill_without_keywords (Some "saude"))
                           [Some "http://legis.senado.leg.br/texto/3.pdf"] None)
                        true))))
    by reflexivity.
  rewrite E in H. destruct H as (_ & _ & Hp & Ha).
  eexists. split; [exact E|]. split; [exact Hp|].
  apply Ha. rewrite Hp. discriminate.
Defined.

(** Two scans of a bill with three pending texts: the sets grow. *)
Lemma matched_keywords_only_grow_witness :
  let start :=
    Senado.next_pdf_or_item [tt] Inputs.has_scheme Inputs.bill_without_keywords
      None Inputs.three_texts in
  let b1 :=
    Senado.collect_keywords Inputs.whole_text Inputs.bill_without_keywords
      (Some "saude") in
  let b2 := Senado.collect_keywords Inputs.whole_text b1 (Some "educacao") in
  Senado.pdf_stages [tt] Inputs.has_scheme Inputs.whole_text Inputs.text_of_pdf
    start ["saude"]
  = Some (Senado.next_pdf_or_item [tt] Inputs.has_scheme b1 None
            (drop 1 Inputs.three_texts))
  /\ Senado.palavras_chave Inputs.bill_without_keywords ⊆ Senado.palavras_chave b1
  /\ Senado.palavras_chave b1 ⊆ Senado.palavras_chave b2.
Proof.
  intros start b1 b2.
  assert (H1 : Senado.pdf_stages [tt] Inputs.has_scheme Inputs.whole_text
                 Inputs.text_of_pdf start ["saude"]
               = Some (Py.Ok
                   (Senado.YRequest
                      (Senado.Request (Some "http://legis.senado.leg.br/texto/2.pdf")
                         Senado.parse_pdf_cb
                         (Senado.MetaPdf b1
                            [Some "http://legis.senado.leg.br/texto/3.pdf"] None)
                         true))))
    by reflexivity.
  assert (H2 : Senado.pdf_stages [tt] Inputs.has_scheme Inputs.whole_text
                 Inputs.text_of_pdf start (["saude"] ++ ["educacao"])%list
               = Some (Py.Ok
                   (Senado.YRequest
                      (Senado.Request (Some "http://legis.senado.leg.br/texto/3.pdf")
                         Senado.parse_pdf_cb (Senado.MetaPdf b2 [] None) true))))
    by reflexivity.
  split; [exact H1|].
  exact (proj2 (proj2 (proj2 (proj2
           (matched_keywords_only_grow [tt] Inputs.has_scheme Inputs.whole_text
              Inputs.text_of_pdf))))
           Inputs.bill_without_keywords None Inputs.three_texts
           ["saude"] ["educacao"] _ _ b1 b2 H1 H2 eq_refl eq_refl).
Defined.

(** * Properties of [SenadoSpider]: the manifest of texts *)

Section ManifestProperties.
Import Xml Senado.

Context {matcher pdf : Type}.
Variable MATCHERS : list matcher.
Variable accepts_url : string -> bool.
Variable matchKeywords : option string -> gset string.
Variable text_from_pdf : pdf -> string.

Local Abbreviation next_step := (next_pdf_or_item MATCHERS accepts_url).
Local Abbreviation no_lower := (Py.AttributeError "NoneType" "lower").

(** The entries of one document all read the same type tag, the first of
    the document: the scan keeps nothing, and it raises when there is an
    entry and the document has no type tag at all. *)
Lemma pending_texts_of_shared doc (entries : list selector) :
  (forall e, In e entries -> document e = doc) ->
  pending_texts_of entries
  = match entries with
    | [] => Py.Ok []
    | _ :: _ =>
        match extract_first (xpath_abs (response doc) ["TipoDocumento"] text) with
        | Some _ => Py.Ok []
        | None => Py.Raise no_lower
        end
    end.
Proof.
  induction entries as [|e rest IH]; intros Hdoc; [reflexivity|].
  cbn [pending_texts_of].
  rewrite (xpath_abs_same_document e (response doc)) by (apply Hdoc; left; reflexivity).
  destruct (extract_first _) as [tag|]; [|reflexivity].
  cbn [Py.getattr_lower Py.bind Py.eq].
  rewrite IH by (intros e' He'; apply Hdoc; right; exact He').
  destruct rest; reflexivity.
Qed.

Lemma parse_texts_spec (response : selector) bill keywords :
  parse_texts MATCHERS accepts_url response bill keywords
  = match xpath_abs response [] (named "Text") with
    | [] => next_step bill keywords []
    | _ :: _ =>
        match extract_first (xpath_abs response ["TipoDocumento"] text) with
        | Some _ => next_step bill keywords []
        | None => Py.Raise no_lower
        end
    end.
Proof.
  unfold parse_texts.
  rewrite (pending_texts_of_shared (document response)).
  - rewrite (xpath_abs_same_document (Xml.response (document response)) response)
      by reflexivity.
    destruct (xpath_abs response [] (named "Text")); [reflexivity|].
    destruct (extract_first _); reflexivity.
  - intros e He. apply (xpath_abs_document _ _ _ _ He).
Qed.

(** An entry that carries a type tag makes the document have one. *)
Lemma own_tag_seen_from_root (response entry : selector) :
  In entry (xpath_abs response [] (named "Text")) ->
  carries_type_tag entry = true ->
  exists tag, extract_first (xpath_abs response ["TipoDocumento"] text) = Some tag.
Proof.
  intros Hentry Htag.
  assert (Hdoc := xpath_abs_document _ _ _ _ Hentry).
  unfold xpath_abs in Hentry. apply list_elem_of_In, list_elem_of_fmap in Hentry.
  destruct Hentry as (e & -> & He%list_elem_of_In). simpl in Hdoc.
  unfold carries_type_tag, own_type_tag, extract_first, xpath_below in Htag.
  rewrite extract_selection in Htag. cbn [document context] in Htag.
  set (below := flat_map (select (rev ["TipoDocumento"]) text []) (children e)) in *.
  destruct (omap chars below) as [|d ds] eqn:Hsel; [discriminate|].
  assert (Hd : d ∈ omap chars below) by (rewrite Hsel; left).
  apply list_elem_of_omap in Hd as (x & Hx%list_elem_of_In & Hchars).
  pose proof (select_below _ _ _ _ _ _ _ _ He Hx) as Hroot.
  unfold extract_first, xpath_abs. rewrite extract_selection.
  set (every := select (rev ["TipoDocumento"]) text [] (document response)) in *.
  destruct (omap chars every) as [|d' ds'] eqn:Hall; [|eexists; reflexivity].
  exfalso.
  assert (Hin : d ∈ omap chars every).
  { apply list_elem_of_omap. exists x.
    split; [apply list_elem_of_In; exact Hroot | exact Hchars]. }
  rewrite Hall in Hin. inversion Hin.
Qed.

(** C10: in a manifest whose entries all carry a type tag, the condition of
    the scan, which compares the bound method [lower] of the tag with ['pdf'],
    is false for every entry; the queue of pending texts is empty, no fetch of
    a PDF is issued and the PDF stage is never invoked: the bill is finalized
    at once.  For a bill that came through [parse_bill] and
    [parse_authorship], the keywords that are joined are those matched in the
    description and in the keyword index of the detail page. *)
Theorem manifest_queue_always_empty (response : selector) :
  forallb carries_type_tag (xpath_abs response [] (named "Text")) = true ->
  (forall entry, In entry (xpath_abs response [] (named "Text")) ->
     exists tag,
       Py.getattr_lower (extract_first (xpath_abs entry ["TipoDocumento"] text))
       = Py.Ok (Py.VBoundMethod tag "lower")
       /\ Py.eq (Py.VBoundMethod tag "lower") (Py.VStr "pdf") = false)
  /\ pending_texts_of (xpath_abs response [] (named "Text")) = Py.Ok []
  /\ (forall bill keywords,
        parse_texts MATCHERS accepts_url response bill keywords
        = next_pdf_or_item MATCHERS accepts_url bill keywords []
        /\ exists o,
             next_pdf_or_item MATCHERS accepts_url bill keywords [] = Py.Ok o
             /\ awaits_pdf o = false
             /\ forall answer,
                  pdf_stage MATCHERS accepts_url matchKeywords text_from_pdf
                    o answer = None)
  /\ (forall detail authorship code,
        exists bill keywords bill',
          req_meta (parse_bill matchKeywords detail code)
          = MetaBill bill keywords code
          /\ req_meta (parse_authorship authorship bill keywords code)
             = MetaBill bill' keywords code
          /\ parse_texts MATCHERS accepts_url response bill' keywords
             = next_pdf_or_item MATCHERS accepts_url bill' keywords []
          /\ palavras_chave bill'
             = matchKeywords (extract_first (xpath_abs detail ["EmentaMateria"] text))
               ∪ matchKeywords
                   (extract_first (xpath_abs detail ["IndexacaoMateria"] text))).
Proof.
  intros Hall. rewrite forallb_forall in Hall.
  assert (Hcond : forall entry, In entry (xpath_abs response [] (named "Text")) ->
            exists tag,
              extract_first (xpath_abs entry ["TipoDocumento"] text) = Some tag).
  { intros entry He.
    destruct (own_tag_seen_from_root response entry He (Hall _ He)) as [tag Htag].
    exists tag.
    rewrite (xpath_abs_same_document entry response)
      by (apply (xpath_abs_document _ _ _ _ He)).
    exact Htag. }
  assert (Hparse : forall bill keywords,
            parse_texts MATCHERS accepts_url response bill keywords
            = next_step bill keywords []).
  { intros bill keywords. rewrite parse_texts_spec.
    destruct (xpath_abs response [] (named "Text")) as [|e es] eqn:Hes;
      [reflexivity|].
    destruct (own_tag_seen_from_root response e) as [tag ->];
      [rewrite Hes; left; reflexivity | apply Hall; left; reflexivity | reflexivity]. }
  split.
  { intros entry He. destruct (Hcond entry He) as [tag ->].
    exists tag. split; reflexivity. }
  split.
  { rewrite (pending_texts_of_shared (document response))
      by (intros e He; apply (xpath_abs_document _ _ _ _ He)).
    destruct (xpath_abs response [] (named "Text")) as [|e es] eqn:Hes;
      [reflexivity|].
    rewrite (xpath_abs_same_document (Xml.response (document response)) response)
      by reflexivity.
    destruct (own_tag_seen_from_root response e) as [tag ->];
      [rewrite Hes; left; reflexivity | apply Hall; left; reflexivity | reflexivity]. }
  split.
  { intros bill keywords. split; [apply Hparse|].
    destruct (next_step_nil_ok MATCHERS accepts_url bill keywords) as [o Ho].
    exists o. split; [exact Ho|]. split.
    - apply (awaits_pdf_next_step _ _ _ _ _ _ Ho).
    - intros answer.
      apply (pdf_stage_finalized _ _ matchKeywords text_from_pdf _ _ _ answer Ho). }
  intros detail authorship code. eexists _, _, _.
  split; [reflexivity|]. split; [reflexivity|]. split; [apply Hparse|].
  simpl. rewrite union_empty_l_L. reflexivity.
Qed.

(** C3 (as the code has it): the manifest with one text tagged ['pdf'] gives
    an empty queue, and the bill is finalized without a fetch of its text,
    where reading each entry's own tag and own URL keeps that text. *)
Theorem manifest_scan_drops_pdf_entry (bill : draft) (keywords : option string) :
  pending_texts_of (xpath_abs (response Inputs.manifest_one_pdf) [] (named "Text"))
  = Py.Ok []
  /\ parse_texts MATCHERS accepts_url (response Inputs.manifest_one_pdf) bill
       keywords
     = next_pdf_or_item MATCHERS accepts_url bill keywords []
  /\ pending_texts_contract (response Inputs.manifest_one_pdf)
     = [Some "http://legis.senado.leg.br/texto/1.pdf"].
Proof.
  split; [vm_compute; reflexivity|]. split; [|vm_compute; reflexivity].
  rewrite parse_texts_spec. reflexivity.
Qed.

(** C4 (as the code has it): on the manifest whose only text has no type
    tag, the scan raises [AttributeError]: [extract_first] gives [None], which
    has no attribute [lower]. *)
Theorem manifest_scan_raises_without_tag (bill : draft) (keywords : option string) :
  parse_texts MATCHERS accepts_url (response Inputs.manifest_untagged) bill
    keywords
  = Py.Raise (Py.AttributeError "NoneType" "lower")
  /\ pending_texts_contract (response Inputs.manifest_untagged) = [].
Proof.
  split; [|vm_compute; reflexivity].
  rewrite parse_texts_spec. reflexivity.
Qed.

End ManifestProperties.

(** The manifest with one text tagged ['pdf'] gives an empty queue. *)
Lemma manifest_queue_always_empty_witness :
  forallb Senado.carries_type_tag
    (Xml.xpath_abs (Xml.response Inputs.manifest_one_pdf) [] (Xml.named "Text"))
  = true
  /\ Senado.pending_texts_of
       (Xml.xpath_abs (Xml.response Inputs.manifest_one_pdf) [] (Xml.named "Text"))
     = Py.Ok [].
Proof.
  assert (H : forallb Senado.carries_type_tag
                (Xml.xpath_abs (Xml.response Inputs.manifest_one_pdf) []
                   (Xml.named "Text")) = true) by reflexivity.
  split; [exact H|].
  exact (proj1 (proj2
           (manifest_queue_always_empty [tt] Inputs.has_scheme Inputs.whole_text
              Inputs.text_of_pdf
              (Xml.response Inputs.manifest_one_pdf) H))).
Defined.

(** * Properties of [SenadoSpider]: discovery *)

Section DiscoveryProperties.
Import Senado.

Lemma NoDup_list_prod {A B} (l : list A) (k : list B) :
  NoDup l -> NoDup k -> NoDup (list_prod l k).
Proof.
  intros Hl Hk. induction Hl as [|x l Hx Hl IH]; simpl; [constructor|].
  apply NoDup_app. split; [|split; [|exact IH]].
  - apply (NoDup_fmap_2 (pair x)). exact Hk.
  - intros [a b] Hab%list_elem_of_In%in_map_iff Hin%list_elem_of_In%in_prod_iff.
    destruct Hab as (b' & [= <- <-] & _). destruct Hin as [Hin _].
    apply Hx, list_elem_of_In, Hin.
Qed.

Lemma start_pairs_elem (start_date today : date) (y : Z) (s : string) :
  (y, s) ∈ start_pairs start_date today
  <-> (year start_date <= y <= year today)%Z /\ s ∈ subjects.
Proof.
  unfold start_pairs, range.
  rewrite list_elem_of_In, in_prod_iff, <- !list_elem_of_In, elem_of_seqZ.
  split; intros [H1 H2]; (split; [lia | exact H2]).
Qed.

Lemma start_pairs_NoDup (start_date today : date) :
  NoDup (start_pairs start_date today).
Proof.
  apply NoDup_list_prod; [apply NoDup_seqZ|].
  apply (bool_decide_unpack _). vm_compute. reflexivity.
Qed.

(** The URL of the list tells the subject and the year apart. *)
Lemma urls_list_inj (s1 s2 : string) (y1 y2 : Z) :
  s1 ∈ subjects -> s2 ∈ subjects ->
  urls_list s1 (pretty y1) = urls_list s2 (pretty y2) ->
  s1 = s2 /\ y1 = y2.
Proof.
  unfold urls_list, subjects. intros H1 H2 Heq.
  apply (inj (String.app _)) in Heq.
  repeat (apply elem_of_cons in H1 as [->|H1]);
    [| | |apply elem_of_nil in H1; destruct H1];
    (repeat (apply elem_of_cons in H2 as [->|H2]);
       [| | |apply elem_of_nil in H2; destruct H2]);
    simpl in Heq; try discriminate Heq;
    (split; [reflexivity|]); injection Heq as Heq; apply (inj pretty), Heq.
Qed.

(** C6: discovery yields one request per pair of a year from the start year
    to the current year, both included, and a configured subject: the pairs
    are exactly those, none twice, each gives one request, and the requests
    differ from one another; there are (number of years) x 3 of them.  From
    2020 to 2022 these are the 9 requests of the 3 years and 3 subjects. *)
Theorem discovery_one_request_per_year_and_subject (start_date today : date) :
  let pairs := start_pairs start_date today in
  let requests := start_requests start_date today in
  (forall y s, (y, s) ∈ pairs
     <-> (year start_date <= y <= year today)%Z /\ s ∈ subjects)
  /\ NoDup pairs
  /\ requests
     = (fun ys : Z * string =>
          Request (Some (urls_list (snd ys) (pretty (fst ys)))) parse_cb NoMeta false)
       <$> pairs
  /\ NoDup requests
  /\ length requests
     = (Z.to_nat (year today + 1 - year start_date) * length subjects)%nat
  /\ (forall m d m' d',
        start_pairs (Date 2020 m d) (Date 2022 m' d')
        = [(2020, "PLS"); (2020, "PLC"); (2020, "PEC");
           (2021, "PLS"); (2021, "PLC"); (2021, "PEC");
           (2022, "PLS"); (2022, "PLC"); (2022, "PEC")]%Z
        /\ length (start_requests (Date 2020 m d) (Date 2022 m' d')) = 9%nat).
Proof.
  intros pairs requests.
  split; [intros y s; apply start_pairs_elem|].
  split; [apply start_pairs_NoDup|].
  split; [reflexivity|]. split; [|split].
  - apply NoDup_fmap_2_strong; [|apply start_pairs_NoDup].
    intros [y1 s1] [y2 s2] [_ H1]%start_pairs_elem [_ H2]%start_pairs_elem Heq.
    cbn [fst snd] in Heq.
    assert (Hurl : urls_list s1 (pretty y1) = urls_list s2 (pretty y2))
      by congruence.
    destruct (urls_list_inj s1 s2 y1 y2 H1 H2 Hurl) as [-> ->]. reflexivity.
  - subst requests. unfold start_requests, start_pairs, range.
    rewrite length_fmap, length_prod, length_seqZ. reflexivity.
  - intros m d m' d'. split; reflexivity.
Qed.

End DiscoveryProperties.

(** * Properties of [AgendaSenadoSpider]: the description of an event *)

Section DescriptionProperties.
Import Xml Agenda.

Lemma append_assoc (a b c : string) : (a +:+ b) +:+ c = a +:+ (b +:+ c).
Proof.
  induction a as [|x a IH]; [reflexivity|].
  change (String x ((a +:+ b) +:+ c) = String x (a +:+ (b +:+ c))).
  rewrite IH. reflexivity.
Qed.

Lemma join_cons_truthy sep (x : string) (l : list string) :
  Py.truthy x = true -> Py.truthy (Py.join sep (x :: l)) = true.
Proof. destruct x as [|c s]; [discriminate|]. destruct l; reflexivity. Qed.

Lemma parse_invitees_bullets (event : selector) :
  parse_invitees event
  = (fun invitee => "* " +:+ invitee_as_stated invitee) <$> invitees_of event.
Proof. reflexivity. Qed.

(** The invitee fragment is empty exactly when there is no invitee. *)
Lemma invitees_fragment_truthy (event : selector) :
  Py.truthy (invitees_fragment event) = Py.nonempty (parse_invitees event).
Proof.
  unfold invitees_fragment. rewrite parse_invitees_bullets.
  destruct (invitees_of event) as [|i others]; [reflexivity|].
  apply join_cons_truthy. reflexivity.
Qed.

Lemma join_snoc sep (l : list string) (x : string) :
  exists before, Py.join sep (app l [x]) = before +:+ x.
Proof.
  induction l as [|a l [before IH]]; [exists ""; reflexivity|].
  exists (a +:+ sep +:+ before).
  change (Py.join sep (app (a :: l) [x]))
    with (String.concat sep (a :: app l [x])).
  destruct (app l [x]) as [|y ys] eqn:E; [destruct l; discriminate E|].
  change (String.concat sep (a :: y :: ys))
    with (a +:+ sep +:+ Py.join sep (y :: ys)).
  rewrite IH, !append_assoc. reflexivity.
Qed.

(** A fragment of invitees that is not empty closes the description. *)
Lemma compose_contract_invitees_last (objective items observations invitees : string) :
  Py.truthy invitees = true ->
  exists before,
    compose_contract objective items observations invitees
    = before +:+ "**Convidados**" +:+ Py.nl +:+ Py.nl +:+ invitees.
Proof.
  intros Hinv. unfold compose_contract.
  change (zip headings [objective; items; observations; invitees])
    with ([("**Finalidade**" +:+ Py.nl, objective);
           ("**Pauta**" +:+ Py.nl +:+ " ", items);
           ("**Observações**" +:+ Py.nl, observations)]
          ++ [("**Convidados**" +:+ Py.nl +:+ Py.nl, invitees)])%list.
  rewrite flat_map_app.
  change (flat_map labelled [("**Convidados**" +:+ Py.nl +:+ Py.nl, invitees)])
    with ((if Py.truthy invitees
           then [("**Convidados**" +:+ Py.nl +:+ Py.nl) +:+ invitees] else [])
          ++ [])%list.
  rewrite Hinv.
  destruct (join_snoc (Py.nl +:+ Py.nl)
              (flat_map labelled
                 [("**Finalidade**" +:+ Py.nl, objective);
                  ("**Pauta**" +:+ Py.nl +:+ " ", items);
                  ("**Observações**" +:+ Py.nl, observations)])
              (("**Convidados**" +:+ Py.nl +:+ Py.nl) +:+ invitees))
    as [before Hbefore].
  exists before. exact Hbefore.
Qed.

Lemma truthy_cases (s : string) :
  (s = "" /\ Py.truthy s = false) \/ (exists c r, s = String c r).
Proof. destruct s as [|c r]; [left; split; reflexivity | right; eauto]. Qed.

(** [parse_description] does what the composer of the spec does on the four
    fragments of the event. *)
Lemma description_refines_contract (event : selector) :
  parse_description event
  = compose_contract (objective_of event) (items_of event) (ps_of event)
      (invitees_fragment event).
Proof.
  unfold parse_description, compose_contract.
  pose proof (invitees_fragment_truthy event) as Hinv.
  unfold invitees_fragment in *.
  destruct (Py.nonempty (parse_invitees event));
    destruct (truthy_cases (Py.join Py.nl (parse_invitees event)))
      as [[Hv Hv']|(cv & rv & Hv)];
    try (rewrite Hv' in Hinv; discriminate Hinv);
    try (rewrite Hv in Hinv; discriminate Hinv);
    rewrite Hv;
    destruct (objective_of event), (items_of event), (ps_of event); reflexivity.
Qed.

(** C8: the description is made of the fragments of the event that are not
    empty, each under its fixed heading, joined with a blank line, in the
    order objective, items, observations, invitees; an empty or absent
    fragment leaves neither heading nor separator.  The objective is the
    first [Finalidade] of the event, the items are the names of its [Item]s
    joined with [', '], the observations are its first [Observacoes], and the
    invitees are the lines of its [Convidado]s.  With the objective
    ["Discuss budget"] alone, the description is the heading
    [**Finalidade**], a line feed and the objective; with the four
    fragments it has the four sections, and without observations the three
    others. *)
Theorem description_of_nonempty_fragments (event : selector) :
  parse_description event
  = compose_contract
      (Py.or_empty
         (extract_first
            (xpath_rel event
               [named "Partes"; named "Parte"; named "Finalidade"; text])))
      (Py.join ", "
         (extract
            (xpath_rel event
               [named "Partes"; named "Parte"; named "Itens"; named "Item";
                named "Nome"; text])))
      (Py.or_empty
         (extract_first
            (xpath_rel event
               [named "Partes"; named "Parte"; named "Eventos"; named "Evento";
                named "Observacoes"; text])))
      (Py.join Py.nl
         ((fun invitee =>
             "* " +:+ Py.str (extract_first (xpath_rel invitee [named "Nome"; text]))
               +:+ " ("
               +:+ Py.str (extract_first (xpath_rel invitee [named "Cargo"; text]))
               +:+ ")")
          <$> xpath_rel event
                [named "Partes"; named "Parte"; named "Eventos";
                 named "Convidados"; named "Convidado"]))
  /\ Py.truthy (invitees_fragment event) = Py.nonempty (parse_invitees event)
  /\ compose_contract "Discuss budget" "" "" ""
     = "**Finalidade**" +:+ Py.nl +:+ "Discuss budget"
  /\ parse_description (response Inputs.event_objective_only)
     = "**Finalidade**" +:+ Py.nl +:+ "Discuss budget"
  /\ parse_description (response Inputs.event_all_fragments)
     = "**Finalidade**" +:+ Py.nl +:+ "Discuss budget" +:+ Py.nl +:+ Py.nl
       +:+ "**Pauta**" +:+ Py.nl +:+ " PLS 123/2019, PEC 45/2019"
       +:+ Py.nl +:+ Py.nl
       +:+ "**Observações**" +:+ Py.nl +:+ "Sala 3" +:+ Py.nl +:+ Py.nl
       +:+ "**Convidados**" +:+ Py.nl +:+ Py.nl
       +:+ "* Ana Souza (Senadora)" +:+ Py.nl +:+ "* Rui Lima (Relator)"
  /\ parse_description (response Inputs.event_without_observations)
     = "**Finalidade**" +:+ Py.nl +:+ "Discuss budget" +:+ Py.nl +:+ Py.nl
       +:+ "**Pauta**" +:+ Py.nl +:+ " PLS 123/2019, PEC 45/2019"
       +:+ Py.nl +:+ Py.nl
       +:+ "**Convidados**" +:+ Py.nl +:+ Py.nl
       +:+ "* Ana Souza (Senadora)" +:+ Py.nl +:+ "* Rui Lima (Relator)".
Proof.
  split; [apply description_refines_contract|].
  split; [apply invitees_fragment_truthy|].
  split; [reflexivity|]. split; [reflexivity|].
  split; vm_compute; reflexivity.
Qed.

(** C9 (amended): each invitee is rendered as a bullet, [* ], followed by the
    name, a space and the role in parentheses; the invitee fragment of the
    description has one such line per invitee and closes the description. *)
Theorem invitees_rendered_as_bullets (event : selector) :
  parse_invitees event <> [] ->
  parse_invitees event
  = (fun invitee =>
       "* " +:+ Py.str (invitee_name invitee)
         +:+ " (" +:+ Py.str (invitee_title invitee) +:+ ")")
    <$> invitees_of event
  /\ (forall invitee name role,
        invitee ∈ invitees_of event ->
        invitee_name invitee = Some name ->
        invitee_title invitee = Some role ->
        ("* " +:+ name +:+ " (" +:+ role +:+ ")") ∈ parse_invitees event)
  /\ invitees_fragment event = Py.join Py.nl (parse_invitees event)
  /\ exists before,
       parse_description event
       = before +:+ "**Convidados**" +:+ Py.nl +:+ Py.nl
           +:+ invitees_fragment event.
Proof.
  intros Hsome. split; [reflexivity|]. split; [|split; [reflexivity|]].
  - intros invitee name role Hin Hname Hrole.
    unfold parse_invitees. apply list_elem_of_fmap. exists invitee.
    rewrite Hname, Hrole. split; [reflexivity | exact Hin].
  - rewrite description_refines_contract.
    apply compose_contract_invitees_last.
    rewrite invitees_fragment_truthy.
    destruct (parse_invitees event); [congruence | reflexivity].
Qed.

(** C9 as stated fails: the line of an invitee is not the name, a space and
    the role in parentheses; it starts with a bullet. *)
Lemma invitee_line_is_not_as_stated :
  parse_invitees (response Inputs.event_one_invitee) = ["* Ana Souza (Senadora)"]
  /\ invitee_as_stated <$> invitees_of (response Inputs.event_one_invitee)
     = ["Ana Souza (Senadora)"]
  /\ parse_invitees (response Inputs.event_one_invitee)
     <> invitee_as_stated <$> invitees_of (response Inputs.event_one_invitee)
  /\ parse_description (response Inputs.event_one_invitee)
     = "**Convidados**" +:+ Py.nl +:+ Py.nl +:+ "* Ana Souza (Senadora)".
Proof.
  split; [reflexivity|]. split; [reflexivity|]. split; [|reflexivity].
  vm_compute. discriminate.
Qed.

End DescriptionProperties.

(** The event with one invitee: her line closes the description. *)
Lemma invitees_rendered_as_bullets_witness :
  Agenda.parse_invitees (Xml.response Inputs.event_one_invitee) <> []
  /\ exists before,
       Agenda.parse_description (Xml.response Inputs.event_one_invitee)
       = before +:+ "**Convidados**" +:+ Py.nl +:+ Py.nl
           +:+ Agenda.invitees_fragment (Xml.response Inputs.event_one_invitee).
Proof.
  assert (H : Agenda.parse_invitees (Xml.response Inputs.event_one_invitee) <> [])
    by (vm_compute; discriminate).
  split; [exact H|].
  exact (proj2 (proj2 (proj2
           (invitees_rendered_as_bullets (Xml.response Inputs.event_one_invitee) H)))).
Defined.

(** * Properties of [AgendaSenadoSpider]: the filter of events *)

Section FilterProperties.
Import Re Agenda.

Variable decimal : codepoint -> bool.

Local Abbreviation match_at := (match_here decimal).
Local Abbreviation literal := (fun c : codepoint => (Lit c, Once)).

(** [findall] finds something exactly when the pattern matches at some
    position of the text. *)
Lemma findall_nonempty (p : pattern) (s : list codepoint) :
  Py.nonempty (findall decimal p s) = true
  <-> exists before x r, s = (before ++ x)%list /\ match_at p x = Some r.
Proof.
  unfold findall. induction s as [|c s IH].
  - cbn [findall_from]. destruct (match_at p []) as [r|] eqn:E.
    + split; [intros _; exists [], [], r; auto | reflexivity].
    + split; [discriminate|].
      intros (before & x & r & Hs & Hm). symmetry in Hs.
      apply app_eq_nil in Hs as [-> ->]. congruence.
  - cbn [findall_from]. destruct (match_at p (c :: s)) as [r|] eqn:E.
    + split; [intros _; exists [], (c :: s), r; auto | reflexivity].
    + rewrite IH. split.
      * intros (before & x & r & -> & Hm). exists (c :: before), x, r. auto.
      * intros (before & x & r & Hs & Hm). destruct before as [|b before].
        { simpl in Hs. subst x. congruence. }
        injection Hs as _ ->. exists before, x, r. auto.
Qed.

(** A run of literals matches exactly itself. *)
Lemma match_literals (lits : list codepoint) (p : pattern) : forall x r,
  match_at ((literal <$> lits) ++ p)%list x = Some r
  <-> exists x', x = (lits ++ x')%list /\ match_at p x' = Some r.
Proof.
  induction lits as [|l lits IH]; intros x r.
  - simpl. split; [intros H; exists x; auto | intros (x' & -> & H); exact H].
  - cbn [fmap list_fmap app match_here atom_matches].
    destruct x as [|c x].
    + split; [discriminate | intros (x' & Hx & _); discriminate Hx].
    + destruct (N.eqb_spec l c) as [->|Hne].
      * change (list_fmap _ _ literal lits) with (literal <$> lits).
        rewrite IH. split.
        -- intros (x' & -> & H). exists x'. auto.
        -- intros (x' & Hx & H). injection Hx as ->. exists x'. auto.
      * split; [discriminate|]. intros (x' & Hx & _). injection Hx as Hc _.
        congruence.
Qed.

(** [\d+] matches exactly at a decimal digit. *)
Lemma match_digits (x : list codepoint) :
  (exists r, match_at [(Digit, OneOrMore)] x = Some r)
  <-> exists d x', x = d :: x' /\ decimal d = true.
Proof.
  destruct x as [|d x'].
  - split; [intros [r H]; discriminate H | intros (d & x' & H & _); discriminate H].
  - cbn [match_here atom_matches]. destruct (decimal d) eqn:Hd.
    + split; [intros _; exists d, x'; auto|]. intros _.
      match goal with |- exists r, match ?m with _ => _ end = _ =>
        destruct m as [r'|] end; eexists; reflexivity.
    + split; [intros [r H]; discriminate H|].
      intros (d' & x'' & [= -> ->] & H). congruence.
Qed.

Lemma match_optional (a : atom) (p : pattern) (x : list codepoint) :
  match_at ((a, Optional) :: p) x
  = match
      match x with
      | c :: s' => if atom_matches decimal a c then match_at p s' else None
      | [] => None
      end
    with
    | Some r => Some r
    | None => match_at p x
    end.
Proof. reflexivity. Qed.

(** [ ?\d+] matches exactly at a decimal digit or at a space before one. *)
Lemma match_space_digits (x : list codepoint) :
  (exists r, match_at [(Lit 32%N, Optional); (Digit, OneOrMore)] x = Some r)
  <-> exists spaces d x',
        x = (spaces ++ d :: x')%list
        /\ (spaces = [] \/ spaces = [32%N])
        /\ decimal d = true.
Proof.
  pose proof (match_digits x) as Hx.
  split.
  - intros [r Hr]. rewrite match_optional in Hr.
    destruct x as [|c x'].
    { destruct (proj1 Hx (ex_intro _ r Hr)) as (d & x'' & Heq & _).
      discriminate Heq. }
    destruct (atom_matches decimal (Lit 32%N) c) eqn:Hc.
    + destruct (match_at [(Digit, OneOrMore)] x') as [r'|] eqn:Hd.
      * cbn [atom_matches] in Hc. apply N.eqb_eq in Hc as <-.
        destruct (proj1 (match_digits x') (ex_intro _ r' Hd))
          as (d & x'' & -> & Hdec).
        exists [32%N], d, x''. auto.
      * destruct (proj1 Hx (ex_intro _ r Hr)) as (d & x'' & Heq & Hdec).
        exists [], d, x''. auto.
    + destruct (proj1 Hx (ex_intro _ r Hr)) as (d & x'' & Heq & Hdec).
      exists [], d, x''. auto.
  - intros (spaces & d & x' & -> & [->| ->] & Hdec); rewrite match_optional;
      cbn [app];
      destruct (proj2 (match_digits (d :: x'))) as [r Hr]; eauto.
    + rewrite Hr. destruct (atom_matches decimal (Lit 32%N) d); [|eauto].
      destruct (match_at [(Digit, OneOrMore)] x'); eauto.
    + cbn [atom_matches]. rewrite N.eqb_refl, Hr. eauto.
Qed.

(** The pattern of a subject matches at [x] exactly when [x] starts with the
    subject, at most one space and a decimal digit. *)
Lemma match_subject (subject : string) (x : list codepoint) :
  (exists r, match_at (subject_pattern subject) x = Some r)
  <-> exists spaces d x',
        x = (codepoints subject ++ spaces ++ d :: x')%list
        /\ (spaces = [] \/ spaces = [32%N])
        /\ decimal d = true.
Proof.
  unfold subject_pattern. split.
  - intros [r Hr]. apply match_literals in Hr as (x' & -> & Hr).
    destruct (proj1 (match_space_digits x') (ex_intro _ r Hr))
      as (spaces & d & x'' & -> & Hsp & Hdec).
    exists spaces, d, x''. auto.
  - intros (spaces & d & x' & -> & Hsp & Hdec).
    destruct (proj2 (match_space_digits (spaces ++ d :: x')%list)) as [r Hr];
      [exists spaces, d, x'; auto|].
    exists r. apply match_literals. eauto.
Qed.

Lemma findall_subject (subject : string) (event_text : list codepoint) :
  Py.nonempty (findall decimal (subject_pattern subject) event_text) = true
  <-> mentions decimal subject event_text.
Proof.
  rewrite findall_nonempty. unfold mentions. split.
  - intros (before & x & r & -> & Hm).
    destruct (proj1 (match_subject subject x) (ex_intro _ r Hm))
      as (spaces & d & x' & -> & Hsp & Hdec).
    exists before, spaces, [d], x'. repeat split; auto.
    simpl. rewrite Hdec. reflexivity.
  - intros (before & spaces & digits & after & -> & Hsp & Hne & Hdec).
    destruct digits as [|d ds]; [congruence|].
    simpl in Hdec. apply andb_prop in Hdec as [Hd _].
    destruct (proj2 (match_subject subject
                       (codepoints subject ++ spaces ++ d :: (ds ++ after))%list))
      as [r Hr]; [exists spaces, d, (ds ++ after)%list; auto|].
    exists before, (codepoints subject ++ spaces ++ d :: (ds ++ after))%list, r.
    split; [reflexivity | exact Hr].
Qed.

Lemma is_related_iff (event_text : list codepoint) :
  is_related_to_a_bill decimal event_text = true
  <-> exists subject,
        subject ∈ Senado.subjects /\ mentions decimal subject event_text.
Proof.
  unfold is_related_to_a_bill. rewrite existsb_exists.
  split; intros (subject & Hin & H); exists subject;
    (split; [apply list_elem_of_In; exact Hin | apply findall_subject; exact H]).
Qed.

(** C7: the filter holds of a text exactly when, for one of the subjects
    PLS, PLC and PEC, the text contains the subject, at most one space and
    one or more decimal digits.  A text that contains ["PLS 123"] or
    ["PEC456"] passes; the text ["PLX 123"] does not. *)
Theorem filter_holds_iff_subject_and_number (event_text : list codepoint) :
  (forall c, (48 <= c <= 57)%N -> decimal c = true) ->
  (is_related_to_a_bill decimal event_text = true
   <-> exists subject,
         subject ∈ Senado.subjects /\ mentions decimal subject event_text)
  /\ (forall before after,
        is_related_to_a_bill decimal
          (before ++ codepoints "PLS 123" ++ after)%list = true
        /\ is_related_to_a_bill decimal
             (before ++ codepoints "PEC456" ++ after)%list = true)
  /\ is_related_to_a_bill decimal (codepoints "PLX 123") = false.
Proof.
  intros Hascii. split; [apply is_related_iff|]. split; [|reflexivity].
  intros before after. split; apply is_related_iff.
  - exists "PLS". split; [set_solver|].
    exists before, [32%N], (codepoints "123"), after.
    split; [reflexivity|]. split; [auto|]. split; [discriminate|].
    simpl. rewrite !Hascii by lia. reflexivity.
  - exists "PEC". split; [set_solver|].
    exists before, [], (codepoints "456"), after.
    split; [reflexivity|]. split; [auto|]. split; [discriminate|].
    simpl. rewrite !Hascii by lia. reflexivity.
Qed.

End FilterProperties.

(** With the ASCII digits for [\d], an agenda item that cites a bill passes. *)
Lemma filter_holds_iff_subject_and_number_witness :
  (forall c, (48 <= c <= 57)%N -> Agenda.ascii_digit c = true)
  /\ Agenda.is_related_to_a_bill Agenda.ascii_digit
       (Re.codepoints "Item 1 - PLS 123/2019") = true.
Proof.
  assert (H : forall c, (48 <= c <= 57)%N -> Agenda.ascii_digit c = true).
  { intros c Hc. unfold Agenda.ascii_digit.
    apply andb_true_intro. split; apply N.leb_le; lia. }
  split; [exact H|].
  exact (proj1 (proj1 (proj2
           (filter_holds_iff_subject_and_number Agenda.ascii_digit
              (Re.codepoints "Item 1 - PLS 123/2019") H))
           (Re.codepoints "Item 1 - ") (Re.codepoints "/2019"))).
Defined.

(** * Further properties of [SenadoSpider] *)

Section PipelineProperties.
Import Xml Senado.

Context {matcher pdf : Type}.
Variable MATCHERS : list matcher.
Variable accepts_url : string -> bool.
Variable matchKeywords : option string -> gset string.
Variable text_from_pdf : pdf -> string.

Local Abbreviation next_step := (next_pdf_or_item MATCHERS accepts_url).
Local Abbreviation stages :=
  (pdf_stages MATCHERS accepts_url matchKeywords text_from_pdf).
Local Abbreviation after_scans := (scanned matchKeywords text_from_pdf).

Lemma next_step_empty_not_request bill keywords r :
  next_step bill keywords [] <> Py.Ok (YRequest r).
Proof.
  destruct (next_step_nil_cases MATCHERS accepts_url bill keywords) as [-> | ->];
    discriminate.
Qed.

(** The manifest stage never asks for a PDF: whatever the manifest, it either
    finalizes the bill at once or raises [AttributeError], and it raises
    exactly when the manifest has an entry and the document has no type tag
    with text. *)
Theorem manifest_never_requests_pdf (response : selector) (bill : draft)
    (keywords : option string) :
  (parse_texts MATCHERS accepts_url response bill keywords
   = Py.Raise (Py.AttributeError "NoneType" "lower")
   <-> xpath_abs response [] (named "Text") <> []
       /\ extract_first (xpath_abs response ["TipoDocumento"] text) = None)
  /\ (parse_texts MATCHERS accepts_url response bill keywords
      = next_pdf_or_item MATCHERS accepts_url bill keywords []
      <-> xpath_abs response [] (named "Text") = []
          \/ extract_first (xpath_abs response ["TipoDocumento"] text) <> None)
  /\ (exists o,
        next_pdf_or_item MATCHERS accepts_url bill keywords [] = Py.Ok o
        /\ awaits_pdf o = false)
  /\ (forall r,
        parse_texts MATCHERS accepts_url response bill keywords
        <> Py.Ok (YRequest r)).
Proof.
  assert (Hfin : exists o, next_step bill keywords [] = Py.Ok o
                           /\ awaits_pdf o = false).
  { destruct (next_step_nil_ok MATCHERS accepts_url bill keywords) as [o Ho].
    exists o. split; [exact Ho|].
    apply (awaits_pdf_next_step _ _ _ _ _ _ Ho). }
  destruct Hfin as [o [Ho Hawait]].
  rewrite parse_texts_spec.
  destruct (xpath_abs response [] (named "Text")) as [|e es];
    [|destruct (extract_first _) as [tag|]].
  - split; [split; [rewrite Ho; discriminate | intros [H _]; congruence]|].
    split; [split; auto|]. split; [eauto|].
    intros r. apply next_step_empty_not_request.
  - split; [split; [rewrite Ho; discriminate | intros [_ H]; discriminate H]|].
    split; [split; [right; discriminate | reflexivity]|]. split; [eauto|].
    intros r. apply next_step_empty_not_request.
  - split; [split; [split; [discriminate | reflexivity] | reflexivity]|].
    split; [split; [rewrite Ho; discriminate
                   | intros [H|H]; [discriminate H | congruence]]|].
    split; [eauto | discriminate].
Qed.

Lemma append_empty_inv (a b : string) : a +:+ b = "" -> a = "" /\ b = "".
Proof. destruct a; [auto | discriminate]. Qed.

(** The joined string is empty only for no keyword or for the empty keyword
    alone. *)
Lemma join_comma_empty_iff (l : list string) :
  Py.join ", " l = "" <-> l = [] \/ l = [""].
Proof.
  destruct l as [|x [|y l]].
  - split; auto.
  - simpl. split; [intros ->; auto | intros [H|[= ->]]; [discriminate H | reflexivity]].
  - split; [|intros [H|H]; discriminate H].
    change (Py.join ", " (x :: y :: l))
      with (x +:+ ", " +:+ Py.join ", " (y :: l)).
    intros [_ H]%append_empty_inv. discriminate H.
Qed.

(** With a keyword-match configuration, finalization emits the bill exactly
    when one of its matched keywords is a non-empty string: a bill with no
    keyword, or with the empty keyword alone, is dropped. *)
Theorem emitted_iff_nonempty_keyword (bill : draft) (keywords : option string) :
  MATCHERS <> [] ->
  ((exists k, k ∈ palavras_chave bill /\ k <> "")
   <-> exists record,
         next_pdf_or_item MATCHERS accepts_url bill keywords []
         = Py.Ok (YBill record))
  /\ (~ (exists k, k ∈ palavras_chave bill /\ k <> "")
      <-> next_pdf_or_item MATCHERS accepts_url bill keywords [] = Py.Ok YNone).
Proof.
  intros Hm.
  assert (Hstep : next_step bill keywords [] =
            if Py.truthy (Py.join ", " (elements (palavras_chave bill)))
            then Py.Ok (YBill (set_palavras_chave
                          (Py.join ", " (elements (palavras_chave bill))) bill))
            else Py.Ok YNone).
  { simpl. destruct MATCHERS; [congruence | reflexivity]. }
  assert (Hkey : (exists k, k ∈ palavras_chave bill /\ k <> "")
                 <-> Py.truthy (Py.join ", " (elements (palavras_chave bill))) = true).
  { pose proof (NoDup_elements (palavras_chave bill)) as Hnd.
    pose proof (join_comma_empty_iff (elements (palavras_chave bill))) as Hj.
    split.
    - intros (k & Hk%elem_of_elements & Hne).
      destruct (Py.truthy _) eqn:Ht; [reflexivity|].
      apply truthy_empty_iff, Hj in Ht as [Ht|Ht]; rewrite Ht in Hk.
      + inversion Hk.
      + apply list_elem_of_singleton in Hk. congruence.
    - intros Ht.
      destruct (elements (palavras_chave bill)) as [|x l] eqn:El; [discriminate Ht|].
      destruct (decide (x = "")) as [->|Hx].
      + destruct l as [|y l]; [discriminate Ht|].
        exists y. split; [apply elem_of_elements; rewrite El; right; left|].
        intros ->. inversion Hnd as [|? ? Hnotin _]; subst. apply Hnotin. left.
      + exists x. split; [apply elem_of_elements; rewrite El; left | exact Hx]. }
  rewrite Hstep, Hkey.
  destruct (Py.truthy _).
  - split; [split; eauto|]. split; [congruence | discriminate].
  - split; [split; [discriminate | intros [r H]; discriminate H]|].
    split; [reflexivity | discriminate].
Qed.

(** The texts of a bill are fetched in the order of the queue, one at a
    time.  After [k] scans, when the URLs before position [k] were ones
    [Request] takes: if the URL at position [k] is one too, the request in
    flight is for it, carries the URLs after it and the keyword index
    unchanged, and has the error callback; if it is [None], the stage raised
    [TypeError], and if it is a string without a scheme, [ValueError], and no
    request is in flight; and when [k] is the length of the queue, the bill
    is finalized. *)
Theorem drain_follows_queue_order (bill : draft) (keywords : option string)
    (q : list text_url) (responses : list pdf) :
  forallb (fetchable accepts_url) (take (length responses) q) = true ->
  (length responses <= length q)%nat ->
  (forall u, q !! length responses = Some (Some u) ->
     accepts_url u = true ->
     pdf_stages MATCHERS accepts_url matchKeywords text_from_pdf
       (next_pdf_or_item MATCHERS accepts_url bill keywords q) responses
     = Some (Py.Ok
               (YRequest
                  (Request (Some u) parse_pdf_cb
                     (MetaPdf (after_scans bill responses)
                        (drop (S (length responses)) q) keywords) true))))
  /\ (q !! length responses = Some None ->
      pdf_stages MATCHERS accepts_url matchKeywords text_from_pdf
        (next_pdf_or_item MATCHERS accepts_url bill keywords q) responses
      = Some (Py.Raise (Py.TypeError "NoneType")))
  /\ (forall u, q !! length responses = Some (Some u) ->
        accepts_url u = false ->
        pdf_stages MATCHERS accepts_url matchKeywords text_from_pdf
          (next_pdf_or_item MATCHERS accepts_url bill keywords q) responses
        = Some (Py.Raise (Py.ValueError u)))
  /\ (length responses = length q ->
      exists o,
        pdf_stages MATCHERS accepts_url matchKeywords text_from_pdf
          (next_pdf_or_item MATCHERS accepts_url bill keywords q) responses
        = Some (Py.Ok o)
        /\ next_pdf_or_item MATCHERS accepts_url (after_scans bill responses)
             keywords [] = Py.Ok o
        /\ awaits_pdf o = false
        /\ forall answer,
             pdf_stage MATCHERS accepts_url matchKeywords text_from_pdf o answer
             = None).
Proof.
  intros Hok Hle.
  rewrite (pdf_stages_spec _ _ _ _ _ _ _ _ Hok). case_decide; [|lia].
  split; [|split; [|split]].
  - intros u Hu Hacc. rewrite (drop_S _ _ _ Hu).
    rewrite next_step_cons_ok by exact Hacc. reflexivity.
  - intros Hu. rewrite (drop_S _ _ _ Hu). reflexivity.
  - intros u Hu Hacc. rewrite (drop_S _ _ _ Hu). simpl. rewrite Hacc.
    reflexivity.
  - intros Hlen. rewrite Hlen, drop_all.
    destruct (next_step_nil_ok MATCHERS accepts_url
                (after_scans bill responses) keywords) as [o Ho].
    exists o. rewrite Ho. split; [reflexivity|]. split; [reflexivity|].
    split; [apply (awaits_pdf_next_step _ _ _ _ _ _ Ho)|].
    intros answer.
    apply (pdf_stage_finalized _ _ matchKeywords text_from_pdf _ _ _ answer Ho).
Qed.

(** The list stage asks for the detail page of each bill code of the list,
    in the order of the list, and forwards the code; an empty list gives no
    request, and codes that differ give requests that differ. *)
Theorem list_stage_one_request_per_code (response : selector) :
  let codes := extract (xpath_abs response ["CodigoMateria"] text) in
  length (parse response) = length codes
  /\ (forall i code,
        codes !! i = Some code
        <-> parse response !! i
            = Some (Request (Some (urls_detail code)) parse_bill_cb
                      (MetaCode code) false))
  /\ (NoDup codes <-> NoDup (parse response)).
Proof.
  intros codes. unfold parse. fold codes.
  assert (Hinj : Inj (=) (=)
            (fun code => Request (Some (urls_detail code)) parse_bill_cb
                           (MetaCode code) false)).
  { intros c1 c2 H. congruence. }
  split; [apply length_fmap|]. split.
  - intros i code. rewrite list_lookup_fmap.
    destruct (codes !! i) as [c|]; simpl; [|split; discriminate].
    split; [intros [= ->]; reflexivity | congruence].
  - symmetry. apply (NoDup_fmap _).
Qed.

(** From the detail page to the record.  Without a keyword-match
    configuration, and on a manifest that does not make the scan raise, the
    three stages after the list end in one [Bill]: the requests go to the
    authorship and text URLs of the forwarded code, and the record has the
    fields of the detail page, the joined authors and author codes, the
    origin ['SE'], the public URL of the forwarded code and the joined
    keywords of the detail stage.  ([collect_keywords] is modelled from the
    spec.) *)
Theorem bill_record_end_to_end (detail authorship manifest : selector)
    (code : string) :
  MATCHERS = [] ->
  (xpath_abs manifest [] (named "Text") = []
   \/ extract_first (xpath_abs manifest ["TipoDocumento"] text) <> None) ->
  exists bill keywords bill' record,
    parse_bill matchKeywords detail code
    = Request (Some (urls_authorship code)) parse_authorship_cb
        (MetaBill bill keywords code) true
    /\ parse_authorship authorship bill keywords code
       = Request (Some (urls_texts code)) parse_texts_cb
           (MetaBill bill' keywords code) true
    /\ parse_texts MATCHERS accepts_url manifest bill' keywords
       = Py.Ok (YBill record)
    /\ keywords = extract_first (xpath_abs detail ["IndexacaoMateria"] text)
    /\ palavras_chave record = Py.join ", " (elements (palavras_chave bill))
    /\ palavras_chave_originais record = keywords
    /\ nome record
       = Py.str (extract_first (xpath_abs detail ["SiglaSubtipoMateria"] text))
         +:+ " "
         +:+ Py.str (extract_first (xpath_abs detail ["NumeroMateria"] text))
    /\ id_site record = extract_first (xpath_abs detail ["CodigoMateria"] text)
    /\ apresentacao record
       = extract_first (xpath_abs detail ["DataApresentacao"] text)
    /\ ementa record = extract_first (xpath_abs detail ["EmentaMateria"] text)
    /\ local record = extract_first (xpath_abs detail ["NomeLocal"] text)
    /\ origem record = "SE"
    /\ url record = urls_humans code
    /\ autoria record
       = Some (Py.join ", " (extract (xpath_abs authorship ["NomeAutor"] text)))
    /\ autoria_ids record
       = Some (Py.join ", "
                 (extract (xpath_abs authorship
                    ["IdentificacaoParlamentar"; "CodigoParlamentar"] text))).
Proof.
  intros Hm Hmanifest. eexists _, _, _, _.
  split; [reflexivity|]. split; [reflexivity|]. split.
  { rewrite parse_texts_spec.
    destruct (xpath_abs manifest [] (named "Text")) as [|e es].
    - subst MATCHERS. reflexivity.
    - destruct Hmanifest as [H|H]; [discriminate H|].
      destruct (extract_first _); [|congruence].
      subst MATCHERS. reflexivity. }
  repeat (split; [reflexivity|]). reflexivity.
Qed.

End PipelineProperties.

(** A bill whose one keyword is ["saude"] is emitted when a matcher is
    configured. *)
Lemma emitted_iff_nonempty_keyword_witness :
  [tt] <> []
  /\ exists record,
       Senado.next_pdf_or_item [tt] Inputs.has_scheme
         (Senado.collect_keywords Inputs.whole_text Inputs.bill_without_keywords
            (Some "saude")) None []
       = Py.Ok (Senado.YBill record).
Proof.
  assert (Hm : [tt] <> []) by discriminate.
  split; [exact Hm|].
  apply (proj1 (proj1 (emitted_iff_nonempty_keyword [tt] Inputs.has_scheme
                         (Senado.collect_keywords Inputs.whole_text
                            Inputs.bill_without_keywords (Some "saude"))
                         None Hm))).
  exists "saude". split; [|discriminate].
  change ("saude" ∈ (∅ ∪ {["saude"]} : gset string)).
  apply elem_of_union. right. apply elem_of_singleton. reflexivity.
Defined.

(** After one scan of a queue of three, the second URL is in flight. *)
Lemma drain_follows_queue_order_witness :
  forallb (Senado.fetchable Inputs.has_scheme)
    (take (length ["saude"]) Inputs.three_texts) = true
  /\ (length ["saude"] <= length Inputs.three_texts)%nat
  /\ Senado.pdf_stages [tt] Inputs.has_scheme Inputs.whole_text Inputs.text_of_pdf
       (Senado.next_pdf_or_item [tt] Inputs.has_scheme
          Inputs.bill_without_keywords None Inputs.three_texts) ["saude"]
     = Some (Py.Ok
               (Senado.YRequest
                  (Senado.Request (Some "http://legis.senado.leg.br/texto/2.pdf")
                     Senado.parse_pdf_cb
                     (Senado.MetaPdf
                        (Senado.scanned Inputs.whole_text Inputs.text_of_pdf
                           Inputs.bill_without_keywords ["saude"])
                        [Some "http://legis.senado.leg.br/texto/3.pdf"] None)
                     true))).
Proof.
  assert (Hok : forallb (Senado.fetchable Inputs.has_scheme)
                  (take (length ["saude"]) Inputs.three_texts) = true)
    by reflexivity.
  assert (Hle : (length ["saude"] <= length Inputs.three_texts)%nat)
    by (unfold Inputs.three_texts; simpl; lia).
  split; [exact Hok|]. split; [exact Hle|].
  exact (proj1 (drain_follows_queue_order [tt] Inputs.has_scheme Inputs.whole_text
                  Inputs.text_of_pdf Inputs.bill_without_keywords None
                  Inputs.three_texts ["saude"] Hok Hle)
           "http://legis.senado.leg.br/texto/2.pdf" eq_refl eq_refl).
Defined.

(** A detail page without fields and a manifest without texts: the record
    is named ['None None']. *)
Lemma bill_record_end_to_end_witness :
  exists record,
    Senado.parse_texts ([] : list unit) Inputs.has_scheme
      (Xml.response (Xml.Element "Textos" []))
      (Senado.set_autoria "" ""
         (Senado.collect_keywords Inputs.whole_text
            (Senado.collect_keywords Inputs.whole_text
               (Senado.Item (∅ : gset string) None "None None" None None None
                  None "SE" (Senado.urls_humans "128") None None) None) None))
      None
    = Py.Ok (Senado.YBill record)
    /\ Senado.nome record = "None None".
Proof.
  destruct (bill_record_end_to_end ([] : list unit) Inputs.has_scheme
              Inputs.whole_text
              (Xml.response (Xml.Element "Materia" []))
              (Xml.response (Xml.Element "Autoria" []))
              (Xml.response (Xml.Element "Textos" []))
              "128" eq_refl (or_introl eq_refl))
    as (bill & keywords & bill' & record & H1 & H2 & H3 & H4 & _ & _ & H7 & _).
  injection H1 as <- <-. injection H2 as <-.
  exists record. split; [exact H3 | exact H7].
Defined.

(** * Further properties of [AgendaSenadoSpider] *)

Section AgendaProperties.
Import Xml Re Agenda.

(** The description is empty exactly when the meeting has nothing to show:
    no purpose, no item, no observation and no invitee. *)
Theorem description_empty_iff (event : selector) :
  parse_description event = ""
  <-> objective_of event = "" /\ items_of event = "" /\ ps_of event = ""
      /\ parse_invitees event = [].
Proof.
  rewrite description_refines_contract.
  pose proof (invitees_fragment_truthy event) as Hinv.
  destruct (parse_invitees event) as [|line lines]; simpl in Hinv.
  - apply truthy_empty_iff in Hinv. rewrite Hinv.
    destruct (objective_of event) as [|co ro], (items_of event) as [|ci ri],
      (ps_of event) as [|cp rp];
      (split; [intros H; try discriminate H; auto
              | intros (H1 & H2 & H3 & _);
                try discriminate H1; try discriminate H2; try discriminate H3;
                reflexivity]).
  - destruct (invitees_fragment event) as [|cv rv]; [discriminate Hinv|].
    split; [|intros (_ & _ & _ & H); discriminate H].
    destruct (objective_of event) as [|co ro], (items_of event) as [|ci ri],
      (ps_of event) as [|cp rp]; intros H; discriminate H.
Qed.

Section Filter.

Variable decimal : codepoint -> bool.

(** The filter looks for a mention anywhere: a text that passes still passes
    with any text before and after it. *)
Theorem filter_closed_under_context (event_text before after : list codepoint) :
  is_related_to_a_bill decimal event_text = true ->
  is_related_to_a_bill decimal (before ++ event_text ++ after)%list = true.
Proof.
  rewrite !is_related_iff.
  intros (subject & Hs & b & spaces & digits & a & -> & Hsp & Hne & Hd).
  exists subject. split; [exact Hs|].
  exists (before ++ b)%list, spaces, digits, (a ++ after)%list.
  split; [|auto]. rewrite <- !app_assoc. reflexivity.
Qed.

(** A text without a decimal digit never passes the filter. *)
Theorem filter_needs_a_digit (event_text : list codepoint) :
  forallb (fun c => negb (decimal c)) event_text = true ->
  is_related_to_a_bill decimal event_text = false.
Proof.
  intros Hnone. destruct (is_related_to_a_bill decimal event_text) eqn:E;
    [|reflexivity].
  apply is_related_iff in E
    as (subject & _ & b & spaces & digits & a & -> & _ & Hne & Hd).
  destruct digits as [|d ds]; [congruence|].
  simpl in Hd. apply andb_prop in Hd as [Hd _].
  rewrite forallb_forall in Hnone.
  assert (Hin : In d (b ++ codepoints subject ++ spaces ++ (d :: ds) ++ a)%list).
  { rewrite !in_app_iff. right. right. right. left. left. reflexivity. }
  apply Hnone in Hin. rewrite Hd in Hin. discriminate Hin.
Qed.

End Filter.

Section FeedProperties.

Context {naive datetime error : Type}.
Variable extract_markup : selector -> list codepoint.
Variable decimal : codepoint -> bool.
Variable strptime : string -> naive + error.
Variable in_sao_paulo : naive -> datetime.

Local Abbreviation related := (fun event : selector =>
  is_related_to_a_bill decimal (extract_markup event)).
Local Abbreviation date_of := (parse_date strptime in_sao_paulo).
Local Abbreviation loop :=
  (parse_events extract_markup decimal strptime in_sao_paulo).
Local Abbreviation built := (fun (event : selector) (ev : Event datetime) =>
  exists d, date_of event = inl d /\ ev = event_of event d).

(** The loop reads nothing of a meeting that does not pass the filter. *)
Lemma parse_events_filter (events : list selector) :
  loop events = loop (List.filter related events).
Proof.
  induction events as [|event rest IH]; [reflexivity|].
  cbn [parse_events List.filter].
  destruct (is_related_to_a_bill decimal (extract_markup event)) eqn:E;
    [|exact IH].
  cbn [parse_events]. rewrite E, IH. reflexivity.
Qed.

Lemma parse_events_good (events : list selector) :
  Forall (fun event => related event = true) events ->
  Forall (fun event => exists d, date_of event = inl d) events ->
  snd (loop events) = None /\ Forall2 built events (fst (loop events)).
Proof.
  induction events as [|event rest IH]; intros Hrel Hgood.
  - split; [reflexivity | constructor].
  - inversion Hrel as [|? ? Hr Hrel']; subst.
    inversion Hgood as [|? ? [d Hd] Hgood']; subst.
    destruct (IH Hrel' Hgood') as [Hnone Hbuilt].
    cbn [parse_events]. rewrite Hr, Hd. cbn [fst snd].
    split; [exact Hnone|]. constructor; [exists d; auto | exact Hbuilt].
Qed.

Lemma parse_events_bad (before after : list selector) (event : selector) e :
  Forall (fun event => related event = true) before ->
  Forall (fun event => exists d, date_of event = inl d) before ->
  related event = true ->
  date_of event = inr e ->
  snd (loop (before ++ event :: after)) = Some e
  /\ Forall2 built before (fst (loop (before ++ event :: after))).
Proof.
  induction before as [|b before IH]; intros Hrel Hgood Hr He.
  - cbn [app parse_events]. rewrite Hr, He. split; [reflexivity | constructor].
  - inversion Hrel as [|? ? Hb Hrel']; subst.
    inversion Hgood as [|? ? [d Hd] Hgood']; subst.
    destruct (IH Hrel' Hgood' Hr He) as [Hsome Hbuilt].
    cbn [app parse_events]. rewrite Hb, Hd. cbn [fst snd].
    split; [exact Hsome|]. constructor; [exists d; auto | exact Hbuilt].
Qed.

Lemma related_meetings_all (response : selector) :
  Forall (fun event => related event = true)
    (related_meetings extract_markup decimal response).
Proof.
  apply List.Forall_forall. intros event [_ H]%filter_In. exact H.
Qed.

(** When the date of every meeting that passes the filter can be read, the
    feed ends without an exception and yields one event per such meeting, in
    the order of the page, with the meeting's code, date, description and
    committee; the meetings are those children [Reuniao] of the root whose
    markup mentions a subject code and a number.  A meeting that does not
    pass the filter is skipped before its date is read. *)
Theorem feed_emits_related_meetings (response : selector) :
  Forall (fun event => exists d, date_of event = inl d)
    (related_meetings extract_markup decimal response) ->
  snd (parse extract_markup decimal strptime in_sao_paulo response) = None
  /\ Forall2 built (related_meetings extract_markup decimal response)
       (fst (parse extract_markup decimal strptime in_sao_paulo response))
  /\ (forall event,
        In event (related_meetings extract_markup decimal response)
        <-> In event (xpath_rel response [named "Reuniao"])
            /\ exists subject,
                 subject ∈ Senado.subjects
                 /\ mentions decimal subject (extract_markup event)).
Proof.
  intros Hgood. unfold parse. rewrite parse_events_filter.
  destruct (parse_events_good _ (related_meetings_all response) Hgood)
    as [Hnone Hbuilt].
  split; [exact Hnone|]. split; [exact Hbuilt|].
  intros event. unfold related_meetings.
  rewrite filter_In, is_related_iff. reflexivity.
Qed.

(** The first meeting that passes the filter and whose date cannot be read
    ends the feed with the exception of [strptime]: the events of the
    meetings before it have been yielded, and nothing is yielded for the
    meetings after it. *)
Theorem feed_stops_at_first_bad_date (response : selector)
    (before after : list selector) (event : selector) (e : error) :
  related_meetings extract_markup decimal response = (before ++ event :: after)%list ->
  Forall (fun event => exists d, date_of event = inl d) before ->
  date_of event = inr e ->
  snd (parse extract_markup decimal strptime in_sao_paulo response) = Some e
  /\ Forall2 built before
       (fst (parse extract_markup decimal strptime in_sao_paulo response))
  /\ length (fst (parse extract_markup decimal strptime in_sao_paulo response))
     = length before.
Proof.
  intros Hsplit Hgood He. unfold parse. rewrite parse_events_filter.
  pose proof (related_meetings_all response) as Hall.
  unfold related_meetings in Hsplit, Hall. rewrite Hsplit in *.
  apply Forall_app in Hall as [Hbefore Hrest].
  inversion Hrest as [|? ? Hr _]; subst.
  destruct (parse_events_bad before after event e Hbefore Hgood Hr He)
    as [Hsome Hbuilt].
  split; [exact Hsome|]. split; [exact Hbuilt|].
  symmetry. apply (Forall2_length _ _ _ Hbuilt).
Qed.

End FeedProperties.

End AgendaProperties.

(** A mention of a bill inside a longer text. *)
Lemma filter_closed_under_context_witness :
  Agenda.is_related_to_a_bill Agenda.ascii_digit (Re.codepoints "PEC 45") = true
  /\ Agenda.is_related_to_a_bill Agenda.ascii_digit
       (Re.codepoints "Votar a " ++ Re.codepoints "PEC 45" ++ Re.codepoints " hoje")%list
     = true.
Proof.
  assert (H : Agenda.is_related_to_a_bill Agenda.ascii_digit
                (Re.codepoints "PEC 45") = true) by reflexivity.
  split; [exact H|].
  exact (filter_closed_under_context Agenda.ascii_digit (Re.codepoints "PEC 45")
           (Re.codepoints "Votar a ") (Re.codepoints " hoje") H).
Defined.

(** A subject without a number. *)
Lemma filter_needs_a_digit_witness :
  forallb (fun c => negb (Agenda.ascii_digit c)) (Re.codepoints "Votar o PLS") = true
  /\ Agenda.is_related_to_a_bill Agenda.ascii_digit (Re.codepoints "Votar o PLS")
     = false.
Proof.
  assert (H : forallb (fun c => negb (Agenda.ascii_digit c))
                (Re.codepoints "Votar o PLS") = true) by reflexivity.
  split; [exact H|].
  exact (filter_needs_a_digit Agenda.ascii_digit (Re.codepoints "Votar o PLS") H).
Defined.

(** An agenda whose meeting without a readable date is not about a bill:
    the feed ends well. *)
Lemma feed_emits_related_meetings_witness :
  Agenda.related_meetings Inputs.markup_of Agenda.ascii_digit
    (Xml.response Inputs.agenda_dates_good)
  = [Xml.Selector Inputs.agenda_dates_good
       (Inputs.meeting "1" "05/02/2019" "Votar o PLS 123")]
  /\ snd (Agenda.parse Inputs.markup_of Agenda.ascii_digit Inputs.strptime_one
            (fun naive : string => naive) (Xml.response Inputs.agenda_dates_good))
     = None.
Proof.
  assert (E : Agenda.related_meetings Inputs.markup_of Agenda.ascii_digit
                (Xml.response Inputs.agenda_dates_good)
              = [Xml.Selector Inputs.agenda_dates_good
                   (Inputs.meeting "1" "05/02/2019" "Votar o PLS 123")])
    by (vm_compute; reflexivity).
  assert (Hgood : Forall
            (fun event =>
               exists d,
                 Agenda.parse_date Inputs.strptime_one (fun naive : string => naive)
                   event = inl d)
            (Agenda.related_meetings Inputs.markup_of Agenda.ascii_digit
               (Xml.response Inputs.agenda_dates_good))).
  { rewrite E. constructor; [|constructor].
    exists "05/02/2019 10:00". reflexivity. }
  destruct (feed_emits_related_meetings Inputs.markup_of Agenda.ascii_digit
              Inputs.strptime_one (fun naive : string => naive)
              (Xml.response Inputs.agenda_dates_good) Hgood) as (H1 & _).
  split; [exact E | exact H1].
Defined.

(** An agenda whose second meeting about a bill has no readable date: one
    event, then the exception. *)
Lemma feed_stops_at_first_bad_date_witness :
  snd (Agenda.parse Inputs.markup_of Agenda.ascii_digit Inputs.strptime_one
         (fun naive : string => naive) (Xml.response Inputs.agenda_date_bad))
  = Some "ValueError"
  /\ length (fst (Agenda.parse Inputs.markup_of Agenda.ascii_digit
                    Inputs.strptime_one (fun naive : string => naive)
                    (Xml.response Inputs.agenda_date_bad)))
     = 1%nat.
Proof.
  assert (E : Agenda.related_meetings Inputs.markup_of Agenda.ascii_digit
                (Xml.response Inputs.agenda_date_bad)
              = ([Xml.Selector Inputs.agenda_date_bad
                    (Inputs.meeting "1" "05/02/2019" "Votar o PLS 123")]
                 ++ Xml.Selector Inputs.agenda_date_bad
                      (Inputs.meeting "2" "amanha" "Votar a PEC 45")
                 :: [Xml.Selector Inputs.agenda_date_bad
                       (Inputs.meeting "3" "05/02/2019" "Votar o PLC 7")])%list)
    by (vm_compute; reflexivity).
  assert (Hgood : Forall
            (fun event =>
               exists d,
                 Agenda.parse_date Inputs.strptime_one (fun naive : string => naive)
                   event = inl d)
            [Xml.Selector Inputs.agenda_date_bad
               (Inputs.meeting "1" "05/02/2019" "Votar o PLS 123")]).
  { constructor; [|constructor]. exists "05/02/2019 10:00". reflexivity. }
  destruct (feed_stops_at_first_bad_date Inputs.markup_of Agenda.ascii_digit
              Inputs.strptime_one (fun naive : string => naive)
              (Xml.response Inputs.agenda_date_bad) _ _ _ "ValueError"
              E Hgood eq_refl) as (H1 & _ & H3).
  split; [exact H1 | exact H3].
Defined.
